(** * credit-card-bot: the notification / reply pipeline of [main.py]

    A shallow embedding of the two FastAPI handlers ([handle_notification],
    [telegram_webhook]) and of the two language-model helpers
    ([categorize_purchase], [extract_transaction_info]), together with the
    properties of the pipeline.

    Python values are embedded as follows.
    - A [str] is the list of its Unicode code points.
    - The values that [json.loads] and [Request.json] produce are the
      constructors of [pyval]; a [dict] keeps its insertion order as an
      association list with distinct keys.
    - An exception is a constructor of [exn]; a call either returns or raises
      ([result]).
    - The module-level global [last_purchase], the spreadsheet and the messages
      posted to Telegram form the [world] that the handlers thread through.
    - The three remote services (chat completion, Telegram, Sheets) are oracles
      of the request being served ([env]): nothing is assumed about them.
    - [json.loads] itself belongs to the Python runtime, not to the program; it
      is a parameter of the development.
    - [print] writes to a UTF-8 standard output: it raises [UnicodeEncodeError]
      when the text holds a surrogate code point, and returns otherwise. *)

From Stdlib Require Import Strings.String Strings.Ascii.
From Stdlib Require Import List ZArith NArith Bool Lia.
From Stdlib Require Floats.PrimFloat.
Import ListNotations.

Set Warnings "-register-all".

(* ------------------------------------------------------------------------- *)
(** ** Python strings *)

(** A Unicode code point, and a Python [str]. *)
Definition char := N.
Definition str := list char.

(** [lit "abc"] is the Python literal ['abc'] (ASCII text only). *)
Fixpoint lit (s : string) : str :=
  match s with
  | EmptyString => []
  | String a s' => N_of_ascii a :: lit s'
  end.

Arguments lit s%_string.

Definition char_eqb (a b : char) : bool := N.eqb a b.

Fixpoint str_eqb (a b : str) : bool :=
  match a, b with
  | [], [] => true
  | x :: a', y :: b' => char_eqb x y && str_eqb a' b'
  | _, _ => false
  end.

(** [x in xs] for a list of strings. *)
Fixpoint str_in (x : str) (xs : list str) : bool :=
  match xs with
  | [] => false
  | y :: ys => str_eqb x y || str_in x ys
  end.

(** Python slicing [l[start:stop]] (step 1): a negative index counts from the
    end, and both indices are clamped to the length. *)
Definition clamp_index (n i : Z) : Z :=
  if (i <? 0)%Z then Z.max 0 (i + n) else Z.min i n.

Definition py_slice {A : Type} (l : list A) (start stop : Z) : list A :=
  let n := Z.of_nat (length l) in
  let a := clamp_index n start in
  let b := clamp_index n stop in
  firstn (Z.to_nat (b - a)) (skipn (Z.to_nat a) l).

Module PyStr.

(** [str.isspace] for one code point: the characters [str.strip()] removes. *)
Definition isspace (c : char) : bool :=
  ((9 <=? c) && (c <=? 13) || (28 <=? c) && (c <=? 32)
   || (c =? 133) || (c =? 160) || (c =? 5760)
   || (8192 <=? c) && (c <=? 8202)
   || (c =? 8232) || (c =? 8233) || (c =? 8239) || (c =? 8287)
   || (c =? 12288))%N.

Fixpoint lstrip (s : str) : str :=
  match s with
  | [] => []
  | c :: t => if isspace c then lstrip t else s
  end.

Definition rstrip (s : str) : str := rev (lstrip (rev s)).

(** [s.strip()] *)
Definition strip (s : str) : str := rstrip (lstrip s).

(** [s.startswith(p)] *)
Fixpoint startswith (s p : str) {struct p} : bool :=
  match p, s with
  | [], _ => true
  | _ :: _, [] => false
  | a :: p', b :: s' => char_eqb b a && startswith s' p'
  end.

(** [s.endswith(p)] *)
Definition endswith (s p : str) : bool := startswith (rev s) (rev p).

(** [s.find(c)] for a one-character [c]: the lowest index, or -1. *)
Fixpoint find_from (c : char) (s : str) (i : Z) : Z :=
  match s with
  | [] => (-1)%Z
  | x :: t => if char_eqb x c then i else find_from c t (i + 1)%Z
  end.

Definition find (s : str) (c : char) : Z := find_from c s 0%Z.

(** [s.rfind(c)] for a one-character [c]: the highest index, or -1. *)
Fixpoint rfind_from (c : char) (s : str) (i : Z) (best : Z) : Z :=
  match s with
  | [] => best
  | x :: t => rfind_from c t (i + 1)%Z (if char_eqb x c then i else best)
  end.

Definition rfind (s : str) (c : char) : Z := rfind_from c s 0%Z (-1)%Z.

(** [s.split(sep)] for a one-character [sep]; the result is never empty. *)
Fixpoint split (s : str) (sep : char) : list str :=
  match s with
  | [] => [[]]
  | x :: t =>
      if char_eqb x sep then [] :: split t sep
      else match split t sep with
           | [] => [[x]]
           | l :: ls => (x :: l) :: ls
           end
  end.

(** [sep.join(parts)] *)
Fixpoint join (sep : str) (parts : list str) : str :=
  match parts with
  | [] => []
  | [p] => p
  | p :: rest => p ++ sep ++ join sep rest
  end.

End PyStr.

(* ------------------------------------------------------------------------- *)
(** ** Python values, exceptions and results *)

(** The values [json.loads] and [Request.json] build.  A [dict] lists its
    items in insertion order, keys distinct. *)
Inductive pyval : Type :=
| PNone
| PBool (b : bool)
| PInt (z : Z)
| PFloat (f : PrimFloat.float)
| PStr (s : str)
| PList (l : list pyval)
| PDict (d : list (str * pyval)).

Definition pydict := list (str * pyval).

(** [bool(v)]: what [if v:] and [if not v:] test. *)
Definition truthy (v : pyval) : bool :=
  match v with
  | PNone => false
  | PBool b => b
  | PInt z => negb (z =? 0)%Z
  | PFloat f => negb (PrimFloat.eqb f PrimFloat.zero)
  | PStr s => match s with [] => false | _ :: _ => true end
  | PList l => match l with [] => false | _ :: _ => true end
  | PDict d => match d with [] => false | _ :: _ => true end
  end.

(** The remote services the program calls. *)
Inductive service := OpenAI | Telegram | Sheets.

Inductive exn : Type :=
| KeyError (key : str)
| AttributeError (attr : str)
| IndexError
| TypeError
| JSONDecodeError
| UnicodeEncodeError
| ServiceError (s : service).

(** The outcome of a call: a value, or an exception that propagates. *)
Inductive result (A : Type) : Type :=
| Return (a : A)
| Raise (e : exn).

Arguments Return {A} a.
Arguments Raise {A} e.

Definition result_bind {A B : Type} (r : result A) (k : A -> result B) : result B :=
  match r with
  | Return a => k a
  | Raise e => Raise e
  end.

(** [try: body  except Exception as e: handler e]; every constructor of [exn]
    is a subclass of [Exception]. *)
Definition try_except {A : Type} (body : result A) (handler : exn -> result A) : result A :=
  match body with
  | Return a => Return a
  | Raise e => handler e
  end.

Declare Scope result_scope.
Delimit Scope result_scope with result.
Notation "x <~ c ;; k" := (result_bind c (fun x => k))
  (at level 61, c at next level, right associativity) : result_scope.

Fixpoint dict_lookup (d : pydict) (k : str) : option pyval :=
  match d with
  | [] => None
  | (k', v) :: d' => if str_eqb k' k then Some v else dict_lookup d' k
  end.

(** [d[k]] on a dict. *)
Definition dict_getitem (d : pydict) (k : str) : result pyval :=
  match dict_lookup d k with
  | Some v => Return v
  | None => Raise (KeyError k)
  end.

(** [v.get(k, default)]: only a dict has the method. *)
Definition py_get (v : pyval) (k : str) (default : pyval) : result pyval :=
  match v with
  | PDict d => Return (match dict_lookup d k with Some x => x | None => default end)
  | _ => Raise (AttributeError (lit "get"))
  end.

(** [v[k]] with a string key. *)
Definition py_getitem (v : pyval) (k : str) : result pyval :=
  match v with
  | PDict d => dict_getitem d k
  | _ => Raise TypeError
  end.

(** [response.choices[i].message.content] is a string, or [None]. *)
Record choice := { message_content : option str }.
Record response := { choices : list choice }.

(** A formatted text: literal text, interpolated values ([{v}], that is
    [str(v)]), an interpolated exception, and the [repr] of a response object,
    in order. *)
Inductive frag : Type :=
| Lit (s : str)
| Fmt (v : pyval)
| FmtExn (e : exn)
| Repr (r : response).

Definition ftext := list frag.

(* ------------------------------------------------------------------------- *)
(** ** Standard output *)

(** The code points U+D800 to U+DFFF, which UTF-8 does not encode. *)
Definition is_surrogate (c : char) : bool := ((55296 <=? c) && (c <=? 57343))%N.

Definition encodable (s : str) : bool := negb (existsb is_surrogate s).

(** Whether [str(v)] can be written.  Only a string is written as it is;
    [None], booleans and numbers are ASCII, and a list or a dict is written
    through the [repr] of its items, which escapes surrogates. *)
Definition printable (v : pyval) : bool :=
  match v with
  | PStr s => encodable s
  | _ => true
  end.

(** The message of an exception and the [repr] of a response object do not
    contain a surrogate. *)
Definition frag_encodable (f : frag) : bool :=
  match f with
  | Lit s => encodable s
  | Fmt v => printable v
  | FmtExn _ => true
  | Repr _ => true
  end.

(** [print(text)] *)
Definition py_print (text : ftext) : result unit :=
  if forallb frag_encodable text then Return tt else Raise UnicodeEncodeError.

(* ------------------------------------------------------------------------- *)
(** ** The services and the state of the process *)

(** The two chat-completion requests of the program (model [gpt-4o-mini],
    temperature 0).  The constant text of each prompt is fixed by the
    constructor; the fields are what is interpolated into it. *)
Inductive llm_request : Type :=
| CategorizeRequest (category_list_str : str) (description : pyval)
| ExtractRequest (notification_text : pyval).

(** Whom a Telegram message goes to: the configured [CHAT_ID]
    ([os.getenv] gives a string or [None]), or [str(v)]. *)
Inductive recipient : Type :=
| Configured (chat_id : option str)
| StrOf (v : pyval).

(** What the outside world does during one request: each call returns or
    raises.  A Telegram post that gets any HTTP response returns. *)
Record env := {
  chat_completions_create : llm_request -> result response;
  telegram_post : recipient -> ftext -> result unit;
  sheets_append : list pyval -> result unit
}.

(** The state the handlers act on: the global [last_purchase], the rows whose
    append to the spreadsheet returned, the messages whose post to Telegram
    returned. *)
Record world := {
  last_purchase : pydict;
  ledger : list (list pyval);
  outbox : list (recipient * ftext)
}.

(** [last_purchase = {}] at start-up. *)
Definition initial_world : world :=
  {| last_purchase := []; ledger := []; outbox := [] |}.

(** A FastAPI request: [await req.json()] returns the decoded body or raises. *)
Record Request := { req_json : result pyval }.

(** Computations of a handler: state passing, with exceptions.  The state an
    exception leaves behind is kept. *)
Definition M (A : Type) : Type := world -> result A * world.

Definition ret {A : Type} (a : A) : M A := fun w => (Return a, w).

Definition bind {A B : Type} (c : M A) (k : A -> M B) : M B :=
  fun w => match c w with
           | (Return a, w') => k a w'
           | (Raise e, w') => (Raise e, w')
           end.

Definition lift {A : Type} (r : result A) : M A := fun w => (r, w).

Declare Scope handler_scope.
Delimit Scope handler_scope with handler.
Notation "x <- c ;; k" := (bind c (fun x => k))
  (at level 61, c at next level, right associativity) : handler_scope.

(* ------------------------------------------------------------------------- *)
(** ** The program *)

Definition backtick : char := 96%N.
Definition lbrace : char := 123%N.
Definition rbrace : char := 125%N.
Definition newline : char := 10%N.

(** The three emoji of the log lines: U+1F50D, U+2705, U+274C. *)
Definition magnifier : char := 128269%N.
Definition check_mark : char := 9989%N.
Definition cross_mark : char := 10060%N.

(** ['```json'] and ['```'] *)
Definition fence_json : str := [backtick; backtick; backtick] ++ lit "json".
Definition fence : str := [backtick; backtick; backtick].

Definition categories : list str :=
  [ lit "Groceries"; lit "Transportation"; lit "Eating Out"; lit "Bills";
    lit "Entertainment"; lit "Health"; lit "Personal Care"; lit "Education";
    lit "Clothing"; lit "Travel"; lit "Gifts"; lit "Subscriptions"; lit "Other" ].

(** [{"is_credit_card": False}] *)
Definition not_a_transaction : pyval :=
  PDict [(lit "is_credit_card", PBool false)].

(** [{"ok": True}] *)
Definition ok_true : pyval := PDict [(lit "ok", PBool true)].

(** [response.choices[0].message.content] *)
Definition first_content (r : response) : result (option str) :=
  match choices r with
  | [] => Raise IndexError
  | c :: _ => Return (message_content c)
  end.

(** [content.strip()] on a value that may be [None]. *)
Definition content_strip (c : option str) : result str :=
  match c with
  | None => Raise (AttributeError (lit "strip"))
  | Some s => Return (PyStr.strip s)
  end.

(** The unwrapping of the model's answer (the [if]/[elif]/[else] of
    [extract_transaction_info]). *)
Definition select_payload (content : str) : str :=
  if PyStr.startswith content fence_json && PyStr.endswith content fence then
    let json_start := PyStr.find content lbrace in
    let json_end := (PyStr.rfind content rbrace + 1)%Z in
    py_slice content json_start json_end
  else if PyStr.startswith content fence && PyStr.endswith content fence then
    let lines := PyStr.split content newline in
    PyStr.join [newline] (py_slice lines 1 (-1))
  else
    content.

Section Program.

(** [json.loads], of the Python runtime. *)
Variable json_loads : str -> result pyval.
(** [CHAT_ID = os.getenv("TELEGRAM_CHAT_ID")] *)
Variable CHAT_ID : option str.
(** The services, as they behave during the request served. *)
Variable E : env.

Local Open Scope handler_scope.

Definition send_telegram_message (chat_id : recipient) (text : ftext) : M unit :=
  fun w =>
    match telegram_post E chat_id text with
    | Return _ =>
        (Return tt, {| last_purchase := last_purchase w;
                       ledger := ledger w;
                       outbox := outbox w ++ [(chat_id, text)] |})
    | Raise e => (Raise e, w)
    end.

Definition write_to_sheets (row : list pyval) : M unit :=
  fun w =>
    match sheets_append E row with
    | Return _ =>
        (Return tt, {| last_purchase := last_purchase w;
                       ledger := ledger w ++ [row];
                       outbox := outbox w |})
    | Raise e => (Raise e, w)
    end.

(** [last_purchase = d] under [global last_purchase]. *)
Definition set_last_purchase (d : pydict) : M unit :=
  fun w => (Return tt, {| last_purchase := d; ledger := ledger w; outbox := outbox w |}).

Definition get_last_purchase : M pydict :=
  fun w => (Return (last_purchase w), w).

Definition categorize_purchase (description : pyval) : M str :=
  let category_list_str := PyStr.join (lit ", ") categories in
  response <- lift (chat_completions_create E
                      (CategorizeRequest category_list_str description)) ;;
  c <- lift (first_content response) ;;
  category <- lift (content_strip c) ;;
  ret (if negb (str_in category categories) then lit "Other" else category).

(** The end of the [try] block: decode the payload, log the value, return
    it. *)
Definition loads_and_log (json_content : str) : result pyval :=
  (parsed <~ json_loads json_content ;;
   _ <~ py_print [ Lit (check_mark :: lit " Parsed transaction info: "); Fmt parsed ] ;;
   Return parsed)%result.

(** The body of the [try] block: it touches no state. *)
Definition parse_response (r : response) : result pyval :=
  (c <~ first_content r ;;
   content <~ content_strip c ;;
   loads_and_log (select_payload content))%result.

(** [str] of a content that may be [None]. *)
Definition content_value (c : option str) : pyval :=
  match c with
  | None => PNone
  | Some s => PStr s
  end.

(** The [except] block: it logs the exception, then reads
    [response.choices[0].message.content] again and logs it. *)
Definition parse_failed (r : response) (e : exn) : result pyval :=
  (_ <~ py_print [ Lit (cross_mark :: lit " Failed to parse OpenAI response: "); FmtExn e ] ;;
   c <~ first_content r ;;
   _ <~ py_print [ Lit (lit "Raw content: "); Fmt (content_value c) ] ;;
   Return not_a_transaction)%result.

Definition extract_transaction_info (notification_text : pyval) : M pyval :=
  response <- lift (chat_completions_create E (ExtractRequest notification_text)) ;;
  _ <- lift (py_print [ Repr response ]) ;;
  lift (try_except (parse_response response) (parse_failed response)).

Definition handle_notification (req : Request) : M pyval :=
  data <- lift (req_json req) ;;
  notification_text <- lift (py_get data (lit "notification") (PStr [])) ;;
  _ <- lift (py_print [ Lit (magnifier :: lit " Data: "); Fmt data ]) ;;
  _ <- lift (py_print [ Lit (magnifier :: lit " Notification text: ");
                        Fmt notification_text ]) ;;
  txn_info <- extract_transaction_info notification_text ;;
  _ <- lift (py_print [ Fmt txn_info ]) ;;
  flag <- lift (py_get txn_info (lit "is_credit_card") PNone) ;;
  _ <- (if truthy flag then
          amount <- lift (py_getitem txn_info (lit "amount")) ;;
          currency <- lift (py_getitem txn_info (lit "currency")) ;;
          raw_description <- lift (py_getitem txn_info (lit "raw_description")) ;;
          _ <- set_last_purchase [ (lit "amount", amount);
                                   (lit "currency", currency);
                                   (lit "raw_description", raw_description) ] ;;
          send_telegram_message (Configured CHAT_ID)
            [ Lit (lit "You spent "); Fmt amount; Lit (lit " "); Fmt currency;
              Lit (lit " at '"); Fmt raw_description; Lit (lit "'. What was it?") ]
        else ret tt) ;;
  ret ok_true.

Definition telegram_webhook (req : Request) : M pyval :=
  body <- lift (req_json req) ;;
  message <- lift (py_get body (lit "message") (PDict [])) ;;
  chat <- lift (py_get message (lit "chat") (PDict [])) ;;
  id <- lift (py_get chat (lit "id") PNone) ;;
  let chat_id := StrOf id in
  text <- lift (py_get message (lit "text") (PStr [])) ;;
  if negb (truthy text) then ret ok_true
  else
    category <- categorize_purchase text ;;
    _ <- lift (py_print [ Lit (magnifier :: lit " Category: "); Fmt (PStr category) ]) ;;
    purchase <- get_last_purchase ;;
    amount <- lift (dict_getitem purchase (lit "amount")) ;;
    currency <- lift (dict_getitem purchase (lit "currency")) ;;
    raw_description <- lift (dict_getitem purchase (lit "raw_description")) ;;
    _ <- write_to_sheets [amount; currency; raw_description; text; PStr category] ;;
    _ <- send_telegram_message chat_id
           [ Lit (lit "Got it. Categorized as: "); Fmt (PStr category) ] ;;
    ret ok_true.

End Program.

(* ------------------------------------------------------------------------- *)
(** ** Vocabulary of the properties *)

(** A string with no whitespace at either end. *)
Definition no_edge_space (s : str) : Prop :=
  (forall c t, s = c :: t -> PyStr.isspace c = false) /\
  (forall t c, s = t ++ [c] -> PyStr.isspace c = false).

(** [p] is the substring of [c] from the first [x] to the last [y], both
    included. *)
Definition from_first_to_last (x y : char) (c p : str) : Prop :=
  exists a m b,
    c = a ++ x :: m ++ y :: b /\ ~ In x a /\ ~ In y b /\ p = x :: m ++ [y].

(** [p] is [c] without its first line and without its last line (lines are
    separated by [newline]; the two lines are distinct). *)
Definition without_first_and_last_line (c p : str) : Prop :=
  exists f l,
    c = f ++ newline :: p ++ newline :: l /\ ~ In newline f /\ ~ In newline l.

(* ------------------------------------------------------------------------- *)
(** ** Sample services, for the examples *)

(** The double quote, and a JSON string literal without escapes. *)
Definition dquote : char := 34%N.
Definition quoted (s : string) : str := dquote :: lit s ++ [dquote].

(** Every service answers; the model's answer has one choice with the given
    content. *)
Definition answering (content : option str) : env :=
  {| chat_completions_create := fun _ => Return {| choices := [ {| message_content := content |} ] |};
     telegram_post := fun _ _ => Return tt;
     sheets_append := fun _ => Return tt |}.

(** The chat-completion call raises. *)
Definition openai_down : env :=
  {| chat_completions_create := fun _ => Raise (ServiceError OpenAI);
     telegram_post := fun _ _ => Return tt;
     sheets_append := fun _ => Return tt |}.

(** A finite fragment of [json.loads], to run the examples: the decodings of
    the texts listed, every other text being refused.  The properties are
    proved for every decoder; this one only instantiates them. *)
Definition json_object_text (items : list (string * str)) : str :=
  lit "{" ++ PyStr.join (lit ", ") (map (fun kv => quoted (fst kv) ++ lit ": " ++ snd kv) items)
      ++ lit "}".

(** [{"is_credit_card": true, "amount": 2349, "currency": "CLP",
      "raw_description": "Falabella"}] *)
Definition falabella_text : str :=
  json_object_text [ ("is_credit_card", lit "true"); ("amount", lit "2349");
                     ("currency", quoted "CLP"); ("raw_description", quoted "Falabella") ]%string.

Definition falabella : pydict :=
  [ (lit "is_credit_card", PBool true); (lit "amount", PInt 2349);
    (lit "currency", PStr (lit "CLP")); (lit "raw_description", PStr (lit "Falabella")) ].

(** [{"is_credit_card": true, "amount": 990, "currency": "USD",
      "raw_description": "Cafe"}] *)
Definition cafe_text : str :=
  json_object_text [ ("is_credit_card", lit "true"); ("amount", lit "990");
                     ("currency", quoted "USD"); ("raw_description", quoted "Cafe") ]%string.

Definition cafe : pydict :=
  [ (lit "is_credit_card", PBool true); (lit "amount", PInt 990);
    (lit "currency", PStr (lit "USD")); (lit "raw_description", PStr (lit "Cafe")) ].

(** [{"is_credit_card": "false", "amount": 5, "currency": "USD",
      "raw_description": "Shop"}]: the flag is a string. *)
Definition string_flag_text : str :=
  json_object_text [ ("is_credit_card", quoted "false"); ("amount", lit "5");
                     ("currency", quoted "USD"); ("raw_description", quoted "Shop") ]%string.

Definition string_flag : pydict :=
  [ (lit "is_credit_card", PStr (lit "false")); (lit "amount", PInt 5);
    (lit "currency", PStr (lit "USD")); (lit "raw_description", PStr (lit "Shop")) ].

(** [{"is_credit_card": false}], [{"is_credit_card": 1, "amount": 5}] and [[]];
    the last text of the table is the JSON string with the one escape
    [\ud83d], which decodes to the string of that lone surrogate. *)
Definition no_card_text : str := json_object_text [ ("is_credit_card", lit "false") ]%string.
Definition partial_text : str :=
  json_object_text [ ("is_credit_card", lit "1"); ("amount", lit "5") ]%string.
Definition partial : pydict := [ (lit "is_credit_card", PInt 1); (lit "amount", PInt 5) ].

Definition json_samples : list (str * pyval) :=
  [ (falabella_text, PDict falabella);
    (cafe_text, PDict cafe);
    (string_flag_text, PDict string_flag);
    (no_card_text, not_a_transaction);
    (partial_text, PDict partial);
    (lit "[]", PList []);
    (quoted "\ud83d", PStr [55357%N]) ].

Definition json_loads_sample (s : str) : result pyval :=
  match dict_lookup json_samples s with
  | Some v => Return v
  | None => Raise JSONDecodeError
  end.

(** POST /notification with body [{"notification": text}] *)
Definition notification_request (text : string) : Request :=
  {| req_json := Return (PDict [ (lit "notification", PStr (lit text)) ]) |}.

(** POST /webhook with body [{"message": {"chat": {"id": id}, "text": text}}] *)
Definition reply_request (id : Z) (text : string) : Request :=
  {| req_json :=
       Return (PDict [ (lit "message",
                        PDict [ (lit "chat", PDict [ (lit "id", PInt id) ]);
                                (lit "text", PStr (lit text)) ]) ]) |}.

(* ------------------------------------------------------------------------- *)
(** ** Vocabulary of the handlers' properties *)

(** The body of the request decodes to an object whose [notification] field
    (the empty string when absent) is [text]. *)
Definition notification_with_text (req : Request) (text : pyval) : Prop :=
  exists data,
    req_json req = Return data /\
    py_get data (lit "notification") (PStr []) = Return text.

(** The body of the request decodes to a Telegram update whose message comes
    from chat [id] and carries [text]. *)
Definition reply_with_text (req : Request) (id text : pyval) : Prop :=
  exists body message chat,
    req_json req = Return body /\
    py_get body (lit "message") (PDict []) = Return message /\
    py_get message (lit "chat") (PDict []) = Return chat /\
    py_get chat (lit "id") PNone = Return id /\
    py_get message (lit "text") (PStr []) = Return text.

(** The dict [d] has the three fields of a transaction. *)
Definition holds_transaction (d : pydict) (amount currency raw_description : pyval) : Prop :=
  dict_lookup d (lit "amount") = Some amount /\
  dict_lookup d (lit "currency") = Some currency /\
  dict_lookup d (lit "raw_description") = Some raw_description.

(** The value of [d.get("is_credit_card")]. *)
Definition card_flag (d : pydict) : pyval :=
  match dict_lookup d (lit "is_credit_card") with
  | Some v => v
  | None => PNone
  end.

(** What [handle_notification] stores for a transaction. *)
Definition pending (amount currency raw_description : pyval) : pydict :=
  [ (lit "amount", amount); (lit "currency", currency);
    (lit "raw_description", raw_description) ].

(** The row [telegram_webhook] writes. *)
Definition expense_row (amount currency raw_description : pyval) (text : pyval) (category : str)
  : list pyval :=
  [ amount; currency; raw_description; text; PStr category ].

(** A sequence of requests to /webhook, each with the services as they behave
    while it is served; an exception ends a request, not the process. *)
Fixpoint serve_replies (rs : list (env * Request)) (w : world) : world :=
  match rs with
  | [] => w
  | (E, req) :: rs' => serve_replies rs' (snd (telegram_webhook E req w))
  end.

(** The two messages the handlers send. *)
Definition spent_message (amount currency raw_description : pyval) : ftext :=
  [ Lit (lit "You spent "); Fmt amount; Lit (lit " "); Fmt currency;
    Lit (lit " at '"); Fmt raw_description; Lit (lit "'. What was it?") ].

Definition categorized_message (category : str) : ftext :=
  [ Lit (lit "Got it. Categorized as: "); Fmt (PStr category) ].

(** The state after a write to [last_purchase], and after the message that
    follows it was posted. *)
Definition with_purchase (w : world) (d : pydict) : world :=
  {| last_purchase := d; ledger := ledger w; outbox := outbox w |}.

Definition with_message (w : world) (to : recipient) (text : ftext) : world :=
  {| last_purchase := last_purchase w; ledger := ledger w;
     outbox := outbox w ++ [(to, text)] |}.

Definition with_row (w : world) (row : list pyval) : world :=
  {| last_purchase := last_purchase w; ledger := ledger w ++ [row]; outbox := outbox w |}.

(* ------------------------------------------------------------------------- *)
(** ** The service as a sequence of requests *)

(** One request to the service, with the services as they behave while it is
    served: POST /notification or POST /webhook. *)
Inductive call : Type :=
| PostNotification (E : env) (req : Request)
| PostWebhook (E : env) (req : Request).

(** The state a request leaves behind; an exception ends the request, not the
    process. *)
Definition serve (json_loads : str -> result pyval) (CHAT_ID : option str)
           (c : call) (w : world) : world :=
  match c with
  | PostNotification E req => snd (handle_notification json_loads CHAT_ID E req w)
  | PostWebhook E req => snd (telegram_webhook E req w)
  end.

Fixpoint serve_all (json_loads : str -> result pyval) (CHAT_ID : option str)
         (cs : list call) (w : world) : world :=
  match cs with
  | [] => w
  | c :: cs' => serve_all json_loads CHAT_ID cs' (serve json_loads CHAT_ID c w)
  end.

(** [last_purchase] is [{}] or has exactly the three fields of a transaction. *)
Definition store_shape (d : pydict) : Prop :=
  d = [] \/ exists amount currency raw_description,
             d = pending amount currency raw_description.

(** A row of five cells whose last cell is one of the categories. *)
Definition is_expense_row (row : list pyval) : Prop :=
  exists amount currency raw_description text c,
    row = expense_row amount currency raw_description text c /\ In c categories.

(** The model answers with [content]; Telegram and Sheets behave as given. *)
Definition answering_with (content : option str) (telegram sheets : result unit) : env :=
  {| chat_completions_create :=
       fun _ => Return {| choices := [ {| message_content := content |} ] |};
     telegram_post := fun _ _ => telegram;
     sheets_append := fun _ => sheets |}.

(** The model's answer has no choices. *)
Definition no_choices : env :=
  {| chat_completions_create := fun _ => Return {| choices := [] |};
     telegram_post := fun _ _ => Return tt;
     sheets_append := fun _ => Return tt |}.

(* ------------------------------------------------------------------------- *)
(** ** Facts about the string operations *)

Lemma str_eqb_eq (a b : str) : str_eqb a b = true <-> a = b.
Proof.
  revert b; induction a as [|x a IH]; intros [|y b]; simpl; split;
    try congruence; try reflexivity.
  - intros H. apply andb_true_iff in H as [H1 H2].
    apply N.eqb_eq in H1. apply IH in H2. congruence.
  - intros H. injection H as -> ->. apply andb_true_iff. split.
    + apply N.eqb_refl.
    + now apply IH.
Qed.

Lemma str_in_In (x : str) (xs : list str) : str_in x xs = true <-> In x xs.
Proof.
  induction xs as [|y ys IH]; simpl.
  - split; [discriminate | tauto].
  - rewrite orb_true_iff, IH, str_eqb_eq. split; intros [H|H]; auto.
Qed.

Lemma char_eqb_eq (a b : char) : char_eqb a b = true <-> a = b.
Proof. apply N.eqb_eq. Qed.

Lemma char_eqb_neq (a b : char) : char_eqb a b = false <-> a <> b.
Proof. apply N.eqb_neq. Qed.

Lemma lstrip_decomp (s : str) :
  exists pre, s = pre ++ PyStr.lstrip s /\ forallb PyStr.isspace pre = true.
Proof.
  induction s as [|c t [pre [Heq Hpre]]]; simpl.
  - exists []. split; reflexivity.
  - destruct (PyStr.isspace c) eqn:Hc.
    + exists (c :: pre). simpl. rewrite Hc, Hpre. split; [congruence | reflexivity].
    + exists []. split; reflexivity.
Qed.

Lemma lstrip_head (s : str) (c : char) (t : str) :
  PyStr.lstrip s = c :: t -> PyStr.isspace c = false.
Proof.
  induction s as [|x s IH]; simpl; [discriminate|].
  destruct (PyStr.isspace x) eqn:Hx; [exact IH|].
  intros H. injection H as <- _. exact Hx.
Qed.

Lemma forallb_rev {A : Type} (f : A -> bool) (l : list A) :
  forallb f (rev l) = forallb f l.
Proof.
  induction l as [|x l IH]; simpl; [reflexivity|].
  rewrite forallb_app, IH. simpl. rewrite andb_true_r. apply andb_comm.
Qed.

Lemma rstrip_decomp (s : str) :
  exists post, s = PyStr.rstrip s ++ post /\ forallb PyStr.isspace post = true.
Proof.
  destruct (lstrip_decomp (rev s)) as [pre [Heq Hpre]].
  exists (rev pre). split.
  - unfold PyStr.rstrip. rewrite <- rev_app_distr, <- Heq. symmetry. apply rev_involutive.
  - now rewrite forallb_rev.
Qed.

Lemma rstrip_last (s t : str) (c : char) :
  PyStr.rstrip s = t ++ [c] -> PyStr.isspace c = false.
Proof.
  unfold PyStr.rstrip. intros H.
  apply (f_equal (@rev char)) in H.
  rewrite rev_involutive, rev_app_distr in H. simpl in H.
  exact (lstrip_head _ _ _ H).
Qed.

Lemma rstrip_head (s : str) (c : char) (t : str) :
  PyStr.rstrip s = c :: t -> exists t', s = c :: t'.
Proof.
  destruct (rstrip_decomp s) as [post [Heq _]]. intros H.
  rewrite H in Heq. exists (t ++ post). exact Heq.
Qed.

(** [strip] removes a run of whitespace at each end, and nothing else. *)
Lemma strip_spec (s : str) :
  (exists pre post,
      s = pre ++ PyStr.strip s ++ post /\
      forallb PyStr.isspace pre = true /\ forallb PyStr.isspace post = true) /\
  no_edge_space (PyStr.strip s).
Proof.
  split.
  - destruct (lstrip_decomp s) as [pre [Hs Hpre]].
    destruct (rstrip_decomp (PyStr.lstrip s)) as [post [Hu Hpost]].
    exists pre, post. repeat split; trivial.
    unfold PyStr.strip. now rewrite <- Hu.
  - split.
    + intros c t H. unfold PyStr.strip in H.
      destruct (rstrip_head _ _ _ H) as [t' Ht']. exact (lstrip_head _ _ _ Ht').
    + intros t c H. exact (rstrip_last _ _ _ H).
Qed.

Lemma startswith_prefix (s p : str) :
  PyStr.startswith s p = true <-> exists t, s = p ++ t.
Proof.
  revert s; induction p as [|a p IH]; intros s; simpl.
  - split; [exists s; reflexivity | reflexivity].
  - destruct s as [|b s].
    + split; [discriminate | intros [t Ht]; discriminate].
    + rewrite andb_true_iff, char_eqb_eq, IH. split.
      * intros [-> [t ->]]. now exists t.
      * intros [t Ht]. injection Ht as -> ->. split; [reflexivity | now exists t].
Qed.

Lemma endswith_suffix (s p : str) :
  PyStr.endswith s p = true <-> exists t, s = t ++ p.
Proof.
  unfold PyStr.endswith. rewrite startswith_prefix. split; intros [t Ht].
  - exists (rev t). apply (f_equal (@rev char)) in Ht.
    now rewrite rev_involutive, rev_app_distr, rev_involutive in Ht.
  - exists (rev t). subst s. apply rev_app_distr.
Qed.

Lemma find_from_spec (c : char) (s : str) (i : Z) :
  (PyStr.find_from c s i = (-1)%Z /\ ~ In c s) \/
  (exists a r, s = a ++ c :: r /\ ~ In c a /\
               PyStr.find_from c s i = (i + Z.of_nat (length a))%Z).
Proof.
  revert i; induction s as [|x s IH]; intros i; simpl.
  - left. split; auto.
  - destruct (char_eqb x c) eqn:Hx.
    + apply char_eqb_eq in Hx. subst x. right. exists [], s. simpl.
      repeat split; auto. lia.
    + apply char_eqb_neq in Hx.
      destruct (IH (i + 1)%Z) as [[H1 H2] | [a [r [H1 [H2 H3]]]]].
      * left. split; auto. intros [H|H]; auto.
      * right. exists (x :: a), r. subst s. simpl. repeat split.
        -- intros [H|H]; auto.
        -- rewrite H3. lia.
Qed.

Lemma find_spec (s : str) (c : char) :
  (PyStr.find s c = (-1)%Z /\ ~ In c s) \/
  (exists a r, s = a ++ c :: r /\ ~ In c a /\ PyStr.find s c = Z.of_nat (length a)).
Proof.
  unfold PyStr.find.
  destruct (find_from_spec c s 0) as [[H1 H2] | [a [r [H1 [H2 H3]]]]]; [left | right]; auto.
  exists a, r. auto.
Qed.

Lemma rfind_from_spec (c : char) (s : str) (i best : Z) :
  (PyStr.rfind_from c s i best = best /\ ~ In c s) \/
  (exists a b, s = a ++ c :: b /\ ~ In c b /\
               PyStr.rfind_from c s i best = (i + Z.of_nat (length a))%Z).
Proof.
  revert i best; induction s as [|x s IH]; intros i best; simpl.
  - left. split; auto.
  - destruct (IH (i + 1)%Z (if char_eqb x c then i else best))
      as [[H1 H2] | [a [b [H1 [H2 H3]]]]].
    + destruct (char_eqb x c) eqn:Hx.
      * apply char_eqb_eq in Hx. subst x. right. exists [], s. simpl.
        repeat split; auto. rewrite H1. lia.
      * apply char_eqb_neq in Hx. left. split; auto. intros [H|H]; auto.
    + right. exists (x :: a), b. subst s. simpl. repeat split; auto.
      rewrite H3. lia.
Qed.

Lemma rfind_spec (s : str) (c : char) :
  (PyStr.rfind s c = (-1)%Z /\ ~ In c s) \/
  (exists a b, s = a ++ c :: b /\ ~ In c b /\ PyStr.rfind s c = Z.of_nat (length a)).
Proof.
  unfold PyStr.rfind.
  destruct (rfind_from_spec c s 0 (-1)) as [[H1 H2] | [a [b [H1 [H2 H3]]]]]; [left | right]; auto.
  exists a, b. auto.
Qed.

Lemma first_occurrence_unique (c : char) (a r a' r' : str) :
  a ++ c :: r = a' ++ c :: r' -> ~ In c a -> ~ In c a' -> a = a' /\ r = r'.
Proof.
  revert a'; induction a as [|x a IH]; intros a' H Hn Hn'; destruct a' as [|y a']; simpl in *.
  - injection H as ->. auto.
  - injection H as -> _. exfalso. apply Hn'. now left.
  - injection H as -> _. exfalso. apply Hn. now left.
  - injection H as -> H. apply IH in H as [-> ->]; auto.
Qed.

Lemma last_occurrence_unique (c : char) (a b a' b' : str) :
  a ++ c :: b = a' ++ c :: b' -> ~ In c b -> ~ In c b' -> a = a' /\ b = b'.
Proof.
  intros H Hn Hn'.
  apply (f_equal (@rev char)) in H. rewrite !rev_app_distr in H. simpl in H.
  rewrite <- !app_assoc in H. simpl in H.
  apply first_occurrence_unique in H as [H1 H2]; try (rewrite <- in_rev; assumption).
  apply (f_equal (@rev char)) in H1, H2. rewrite !rev_involutive in H1, H2. auto.
Qed.

Lemma py_slice_middle {A : Type} (a m b : list A) :
  py_slice (a ++ m ++ b) (Z.of_nat (length a)) (Z.of_nat (length a + length m)) = m.
Proof.
  unfold py_slice, clamp_index. rewrite !length_app.
  destruct (Z.ltb_spec (Z.of_nat (length a)) 0); [lia|].
  destruct (Z.ltb_spec (Z.of_nat (length a + length m)) 0); [lia|].
  rewrite !Z.min_l by lia.
  replace (Z.to_nat (Z.of_nat (length a + length m) - Z.of_nat (length a))) with (length m) by lia.
  rewrite Nat2Z.id, skipn_app, skipn_all, Nat.sub_diag. simpl.
  rewrite firstn_app, firstn_all, Nat.sub_diag. simpl. apply app_nil_r.
Qed.

Lemma py_slice_empty {A : Type} (l : list A) (start stop : Z) :
  (clamp_index (Z.of_nat (length l)) stop <= clamp_index (Z.of_nat (length l)) start)%Z ->
  py_slice l start stop = [].
Proof.
  intros H. unfold py_slice.
  replace (Z.to_nat _) with 0%nat by lia. reflexivity.
Qed.

Lemma split_not_nil (s : str) (sep : char) : PyStr.split s sep <> [].
Proof.
  destruct s as [|x s]; simpl; [discriminate|].
  destruct (char_eqb x sep); [discriminate|].
  destruct (PyStr.split s sep); discriminate.
Qed.

Lemma split_first (sep : char) (f rest : str) :
  ~ In sep f -> PyStr.split (f ++ sep :: rest) sep = f :: PyStr.split rest sep.
Proof.
  induction f as [|x f IH]; intros H; simpl.
  - unfold char_eqb. now rewrite N.eqb_refl.
  - destruct (char_eqb x sep) eqn:Hx.
    + apply char_eqb_eq in Hx. exfalso. apply H. now left.
    + rewrite IH; [reflexivity|]. intros H'. apply H. now right.
Qed.

Lemma split_absent (sep : char) (l : str) :
  ~ In sep l -> PyStr.split l sep = [l].
Proof.
  induction l as [|x l IH]; intros H; simpl; [reflexivity|].
  destruct (char_eqb x sep) eqn:Hx.
  - apply char_eqb_eq in Hx. exfalso. apply H. now left.
  - rewrite IH; [reflexivity|]. intros H'. apply H. now right.
Qed.

Lemma split_last (sep : char) (m l : str) :
  ~ In sep l -> PyStr.split (m ++ sep :: l) sep = PyStr.split m sep ++ [l].
Proof.
  intros H. induction m as [|x m IH]; simpl.
  - unfold char_eqb. rewrite N.eqb_refl. now rewrite split_absent.
  - destruct (char_eqb x sep); [now rewrite IH|].
    rewrite IH. pose proof (split_not_nil m sep) as Hne.
    destruct (PyStr.split m sep); [contradiction | reflexivity].
Qed.

Lemma join_split (s : str) (sep : char) : PyStr.join [sep] (PyStr.split s sep) = s.
Proof.
  induction s as [|x s IH]; simpl; [reflexivity|].
  pose proof (split_not_nil s sep) as Hne.
  destruct (char_eqb x sep) eqn:Hx.
  - apply char_eqb_eq in Hx. subst x.
    destruct (PyStr.split s sep) as [|l ls] eqn:Hs; [contradiction|].
    change (PyStr.join [sep] ([] :: l :: ls)) with ([] ++ [sep] ++ PyStr.join [sep] (l :: ls)).
    now rewrite IH.
  - destruct (PyStr.split s sep) as [|l ls] eqn:Hs; [contradiction|].
    destruct ls as [|l' ls]; simpl in *; now rewrite <- IH.
Qed.
Example strip_nbsp :
  PyStr.strip ([160; 10] ++ lit "Eating Out" ++ [32; 13; 8232])%N = lit "Eating Out".
Proof. reflexivity. Qed.

Example slice_negative : py_slice (lit "abcdef") (-1) 0 = [] /\
                         py_slice (lit "abcdef") (-3) 100 = lit "def" /\
                         py_slice (lit "abcdef") 1 (-1) = lit "bcde".
Proof. repeat split. Qed.

Example split_join :
  PyStr.split (lit "a" ++ [10] ++ [10] ++ lit "bc")%N 10%N = [lit "a"; []; lit "bc"] /\
  PyStr.join [10%N] [lit "a"; []; lit "bc"] = (lit "a" ++ [10] ++ [10] ++ lit "bc")%N.
Proof. split; reflexivity. Qed.

(* ------------------------------------------------------------------------- *)
(** ** The category classifier *)

Lemma categorize_purchase_run (E : env) (description : pyval) (w : world)
      (r : str) (rest : list choice) :
  chat_completions_create E
    (CategorizeRequest (PyStr.join (lit ", ") categories) description)
  = Return {| choices := {| message_content := Some r |} :: rest |} ->
  categorize_purchase E description w
  = (Return (if negb (str_in (PyStr.strip r) categories) then lit "Other"
             else PyStr.strip r), w).
Proof.
  intros H. unfold categorize_purchase, bind, lift, ret. rewrite H. reflexivity.
Qed.

Lemma categorize_purchase_member (E : env) (description : pyval) (w w' : world) (c : str) :
  categorize_purchase E description w = (Return c, w') -> In c categories /\ w' = w.
Proof.
  unfold categorize_purchase, bind, lift, ret.
  destruct (chat_completions_create E _) as [resp|e]; [|discriminate].
  destruct (first_content resp) as [o|e]; [|discriminate].
  destruct (content_strip o) as [s|e]; [|discriminate].
  destruct (str_in s categories) eqn:Hs; cbn [negb];
    intros H; injection H as <- <-; (split; [|reflexivity]).
  - now apply str_in_In.
  - apply str_in_In. reflexivity.
Qed.

(** C1. For a model answer [r], [categorize_purchase] returns [r] stripped of
    the whitespace around it when that string is one of the 13 categories, and
    ["Other"] when it is not; whatever the model answers, a category that is
    returned belongs to the list. *)
Theorem categorize_purchase_closed_set (E : env) (description : pyval) (w : world) :
  categories = map lit [ "Groceries"; "Transportation"; "Eating Out"; "Bills";
                         "Entertainment"; "Health"; "Personal Care"; "Education";
                         "Clothing"; "Travel"; "Gifts"; "Subscriptions"; "Other" ]%string
  /\
  (forall r rest,
      chat_completions_create E
        (CategorizeRequest (PyStr.join (lit ", ") categories) description)
      = Return {| choices := {| message_content := Some r |} :: rest |} ->
      (In (PyStr.strip r) categories ->
       categorize_purchase E description w = (Return (PyStr.strip r), w)) /\
      (~ In (PyStr.strip r) categories ->
       categorize_purchase E description w = (Return (lit "Other"), w)) /\
      (exists pre post,
          r = pre ++ PyStr.strip r ++ post /\
          forallb PyStr.isspace pre = true /\ forallb PyStr.isspace post = true) /\
      no_edge_space (PyStr.strip r))
  /\
  (forall c w', categorize_purchase E description w = (Return c, w') -> In c categories).
Proof.
  split; [reflexivity|]. split.
  - intros r rest H. rewrite (categorize_purchase_run E description w r rest H).
    destruct (strip_spec r) as [Hdec Hedge].
    split; [|split; [|split; [exact Hdec | exact Hedge]]].
    + intros Hin. apply str_in_In in Hin. now rewrite Hin.
    + intros Hout. destruct (str_in (PyStr.strip r) categories) eqn:Hs; [|reflexivity].
      apply str_in_In in Hs. contradiction.
  - intros c w' H. now apply categorize_purchase_member in H.
Qed.

Lemma categorize_purchase_closed_set_witness :
  categorize_purchase (answering (Some ([32; 10]%N ++ lit "Health" ++ [10]%N)))
    (PStr (lit "pharmacy")) initial_world
  = (Return (lit "Health"), initial_world).
Proof.
  refine (proj1 (proj1 (proj2 (categorize_purchase_closed_set
                                 (answering (Some ([32; 10]%N ++ lit "Health" ++ [10]%N)))
                                 (PStr (lit "pharmacy")) initial_world))
                   ([32; 10]%N ++ lit "Health" ++ [10]%N) [] eq_refl) _).
  apply str_in_In. reflexivity.
Defined.

(** The classifier on three answers: a category wrapped in whitespace, a
    category in the wrong case, and the empty answer. *)
Example categorize_purchase_samples :
  fst (categorize_purchase (answering (Some ([160; 10]%N ++ lit "Eating Out" ++ [32; 13]%N)))
         (PStr (lit "lunch with friends")) initial_world) = Return (lit "Eating Out") /\
  fst (categorize_purchase (answering (Some (lit "groceries")))
         (PStr (lit "milk")) initial_world) = Return (lit "Other") /\
  fst (categorize_purchase (answering (Some [])) (PStr []) initial_world)
  = Return (lit "Other").
Proof. repeat split. Qed.

(* ------------------------------------------------------------------------- *)
(** ** The unwrapping of the model's answer *)

Lemma has_fence_last (c : str) :
  PyStr.endswith c fence = true -> exists t, c = t ++ [backtick].
Proof.
  intros H. apply endswith_suffix in H as [t ->].
  exists (t ++ [backtick; backtick]). unfold fence. now rewrite <- app_assoc.
Qed.

Lemma select_payload_json (c : str) :
  PyStr.startswith c fence_json = true -> PyStr.endswith c fence = true ->
  select_payload c
  = py_slice c (PyStr.find c lbrace) (PyStr.rfind c rbrace + 1).
Proof. intros H1 H2. unfold select_payload. now rewrite H1, H2. Qed.

Lemma select_payload_generic (c : str) :
  PyStr.startswith c fence_json = false ->
  PyStr.startswith c fence = true -> PyStr.endswith c fence = true ->
  select_payload c = PyStr.join [newline] (py_slice (PyStr.split c newline) 1 (-1)).
Proof. intros H1 H2 H3. unfold select_payload. now rewrite H1, H2, H3. Qed.

Lemma select_payload_raw (c : str) :
  PyStr.startswith c fence && PyStr.endswith c fence = false ->
  select_payload c = c.
Proof.
  intros H. unfold select_payload. rewrite H.
  destruct (PyStr.startswith c fence_json) eqn:Hj; [|reflexivity].
  assert (Hf : PyStr.startswith c fence = true).
  { apply startswith_prefix in Hj as [t ->]. apply startswith_prefix.
    exists (lit "json" ++ t). unfold fence_json. now rewrite <- app_assoc. }
  rewrite Hf in H. simpl in H. now rewrite H.
Qed.

Lemma braces_slice (c p : str) :
  from_first_to_last lbrace rbrace c p ->
  py_slice c (PyStr.find c lbrace) (PyStr.rfind c rbrace + 1) = p.
Proof.
  intros [a [m [b [Hc [Ha [Hb ->]]]]]].
  assert (Hfind : PyStr.find c lbrace = Z.of_nat (length a)).
  { destruct (find_spec c lbrace) as [[_ Hn] | [a' [r' [Hc' [Ha' ->]]]]].
    - exfalso. apply Hn. subst c. apply in_or_app. right. now left.
    - rewrite Hc in Hc'. apply first_occurrence_unique in Hc' as [-> _]; auto. }
  assert (Hrfind : PyStr.rfind c rbrace = Z.of_nat (length a + 1 + length m)).
  { destruct (rfind_spec c rbrace) as [[_ Hn] | [a' [b' [Hc' [Hb' ->]]]]].
    - exfalso. apply Hn. subst c. apply in_or_app. right. right.
      apply in_or_app. right. now left.
    - rewrite Hc in Hc'.
      change (a ++ lbrace :: m ++ rbrace :: b) with (a ++ [lbrace] ++ m ++ rbrace :: b) in Hc'.
      rewrite !app_assoc in Hc'.
      apply last_occurrence_unique in Hc' as [<- _]; auto.
      rewrite !length_app. simpl. reflexivity. }
  rewrite Hfind, Hrfind. subst c.
  replace (Z.of_nat (length a + 1 + length m) + 1)%Z
    with (Z.of_nat (length a + length (lbrace :: m ++ [rbrace]))).
  - change (a ++ lbrace :: m ++ rbrace :: b) with (a ++ (lbrace :: m ++ rbrace :: b)).
    replace (lbrace :: m ++ rbrace :: b) with ((lbrace :: m ++ [rbrace]) ++ b).
    + apply py_slice_middle.
    + simpl. now rewrite <- app_assoc.
  - simpl. rewrite length_app. simpl. lia.
Qed.

(** Case analysis on the sign tests of [clamp_index], then arithmetic. *)
Ltac clamp_cases :=
  repeat match goal with
         | |- context [(?x <? 0)%Z] => destruct (Z.ltb_spec x 0)
         end;
  lia.

Lemma braces_absent (c : str) :
  PyStr.endswith c fence = true ->
  (forall p, ~ from_first_to_last lbrace rbrace c p) ->
  py_slice c (PyStr.find c lbrace) (PyStr.rfind c rbrace + 1) = [].
Proof.
  intros Hend Hnone. apply py_slice_empty. unfold clamp_index.
  destruct (has_fence_last c Hend) as [t Ht].
  destruct (rfind_spec c rbrace) as [[-> _] | [a' [b' [Hc' [Hb' ->]]]]];
    destruct (find_spec c lbrace) as [[-> _] | [a [r [Hc [Ha ->]]]]].
  - clamp_cases.
  - clamp_cases.
  - (* a closing brace, no opening brace: the fence follows the brace *)
    assert (Hb : b' <> []).
    { intros ->. rewrite Ht in Hc'. apply app_inj_tail in Hc' as [_ Hc']. discriminate. }
    assert (Hlen : length c = (length a' + S (length b'))%nat)
      by (rewrite Hc' at 1; rewrite length_app; reflexivity).
    destruct b'; [contradiction|]. simpl in Hlen.
    clamp_cases.
  - (* both braces: the closing one comes first *)
    assert (Hlt : (length a' < length a)%nat).
    { destruct (Nat.lt_ge_cases (length a') (length a)) as [|Hge]; [assumption|exfalso].
      assert (Heq : a ++ lbrace :: r = a' ++ rbrace :: b') by congruence.
      apply app_eq_app in Heq as [l [[H1 H2] | [H1 H2]]].
      - assert (l = []) as ->.
        { apply (f_equal (@length char)) in H1. rewrite length_app in H1.
          destruct l; [reflexivity | simpl in H1; lia]. }
        discriminate.
      - destruct l as [|x l]; [discriminate|].
        injection H2 as <- H2.
        apply (Hnone (lbrace :: l ++ [rbrace])).
        exists a, l, b'. repeat split; auto. congruence. }
    clamp_cases.
Qed.

Lemma py_slice_inner {A : Type} (x y : A) (m : list A) :
  py_slice (x :: m ++ [y]) 1 (-1) = m.
Proof.
  unfold py_slice, clamp_index. simpl length. rewrite length_app. simpl length.
  change (1 <? 0)%Z with false. change (-1 <? 0)%Z with true. cbv iota.
  replace (Z.to_nat _) with (length m) by lia.
  replace (Z.to_nat (Z.min 1 _)) with 1%nat by lia.
  simpl. rewrite firstn_app, firstn_all, Nat.sub_diag. simpl. apply app_nil_r.
Qed.

Lemma lines_slice (c p : str) :
  without_first_and_last_line c p ->
  PyStr.join [newline] (py_slice (PyStr.split c newline) 1 (-1)) = p.
Proof.
  intros [f [l [-> [Hf Hl]]]].
  rewrite (split_first newline f _ Hf), (split_last newline p l Hl).
  rewrite py_slice_inner. apply join_split.
Qed.

Lemma lines_few (c : str) :
  (forall p, ~ without_first_and_last_line c p) ->
  PyStr.join [newline] (py_slice (PyStr.split c newline) 1 (-1)) = [].
Proof.
  intros Hnone.
  destruct (find_spec c newline) as [[_ Hn] | [f [r [Hc [Hf _]]]]].
  - now rewrite split_absent.
  - subst c. rewrite (split_first newline f r Hf).
    destruct (rfind_spec r newline) as [[_ Hn] | [m [l [Hr [Hl _]]]]].
    + now rewrite split_absent.
    + exfalso. apply (Hnone m). exists f, l. subst r. auto.
Qed.

(** The three branches of the unwrapping, on any string. *)
Lemma select_payload_cases (c : str) :
  (PyStr.startswith c fence_json = true -> PyStr.endswith c fence = true ->
   (forall p, from_first_to_last lbrace rbrace c p -> select_payload c = p) /\
   ((forall p, ~ from_first_to_last lbrace rbrace c p) -> select_payload c = []))
  /\
  (PyStr.startswith c fence_json && PyStr.endswith c fence = false ->
   PyStr.startswith c fence = true -> PyStr.endswith c fence = true ->
   (forall p, without_first_and_last_line c p -> select_payload c = p) /\
   ((forall p, ~ without_first_and_last_line c p) -> select_payload c = []))
  /\
  (PyStr.startswith c fence_json && PyStr.endswith c fence = false ->
   PyStr.startswith c fence && PyStr.endswith c fence = false ->
   select_payload c = c).
Proof.
  split; [|split].
  - intros H1 H2. rewrite (select_payload_json c H1 H2). split.
    + apply braces_slice.
    + now apply braces_absent.
  - intros H1 H2 H3. rewrite H3, andb_true_r in H1.
    rewrite (select_payload_generic c H1 H2 H3). split.
    + apply lines_slice.
    + apply lines_few.
  - intros _. apply select_payload_raw.
Qed.

(** The payload of five answers: a json fence, a plain fence, bare JSON, a json
    fence around no braces, and a lone fence. *)
Example select_payload_samples :
  select_payload (fence_json ++ [newline] ++ lit "{" ++ quoted "a" ++ lit ": 1}"
                    ++ [newline] ++ fence)
  = lit "{" ++ quoted "a" ++ lit ": 1}" /\
  select_payload (fence ++ [newline] ++ lit "{}" ++ [newline] ++ fence) = lit "{}" /\
  select_payload (lit "{}") = lit "{}" /\
  select_payload (fence_json ++ lit " no object " ++ fence) = [] /\
  select_payload fence = [].
Proof. repeat split. Qed.

(* ------------------------------------------------------------------------- *)
(** ** The extraction engine *)

(** One step of a handler: unfold the plumbing, keep the program's calls. *)
Ltac exec :=
  repeat (progress (cbv beta iota delta [bind lift ret dict_getitem result_bind try_except
                                         get_last_purchase set_last_purchase];
                    cbn [py_get py_getitem])).

Ltac exec_with H := rewrite H; exec.

Lemma extract_transaction_info_run (json_loads : str -> result pyval) (E : env)
      (notification_text : pyval) (w : world) :
  extract_transaction_info json_loads E notification_text w
  = (match chat_completions_create E (ExtractRequest notification_text) with
     | Return resp => try_except (parse_response json_loads resp) (parse_failed resp)
     | Raise e => Raise e
     end, w).
Proof.
  unfold extract_transaction_info, bind, lift.
  destruct (chat_completions_create E _); reflexivity.
Qed.

(** C3. The payload [extract_transaction_info] hands to the JSON decoder.
    With [c] the trimmed content of the model's answer: when [c] starts with
    the fence tagged json and ends with the fence, the function decodes the
    substring of [c] from the first opening brace to the last closing brace,
    both included (the empty string when there is no such substring);
    otherwise, when [c] starts and ends with the plain fence, it decodes [c]
    without its first and last lines (the empty string when [c] has fewer than
    three lines); otherwise it decodes [c] itself.  In each case the outcome is
    that of the rest of the [try] block on that payload, under the same
    [except] block. *)
Theorem extract_transaction_info_unwraps (json_loads : str -> result pyval) (E : env)
        (notification_text : pyval) (w : world) (s : str) (rest : list choice) :
  chat_completions_create E (ExtractRequest notification_text)
  = Return {| choices := {| message_content := Some s |} :: rest |} ->
  let c := PyStr.strip s in
  let decoding payload :=
    (try_except (loads_and_log json_loads payload)
       (parse_failed {| choices := {| message_content := Some s |} :: rest |}), w) in
  (PyStr.startswith c fence_json = true -> PyStr.endswith c fence = true ->
   (forall p, from_first_to_last lbrace rbrace c p ->
              extract_transaction_info json_loads E notification_text w = decoding p) /\
   ((forall p, ~ from_first_to_last lbrace rbrace c p) ->
    extract_transaction_info json_loads E notification_text w = decoding []))
  /\
  (PyStr.startswith c fence_json && PyStr.endswith c fence = false ->
   PyStr.startswith c fence = true -> PyStr.endswith c fence = true ->
   (forall p, without_first_and_last_line c p ->
              extract_transaction_info json_loads E notification_text w = decoding p) /\
   ((forall p, ~ without_first_and_last_line c p) ->
    extract_transaction_info json_loads E notification_text w = decoding []))
  /\
  (PyStr.startswith c fence_json && PyStr.endswith c fence = false ->
   PyStr.startswith c fence && PyStr.endswith c fence = false ->
   extract_transaction_info json_loads E notification_text w = decoding c).
Proof.
  intros H c decoding.
  assert (Hrun : extract_transaction_info json_loads E notification_text w
                 = decoding (select_payload c)).
  { rewrite extract_transaction_info_run, H. reflexivity. }
  destruct (select_payload_cases c) as [Hjson [Hplain Hraw]].
  split; [|split].
  - intros H1 H2. destruct (Hjson H1 H2) as [Hsome Hnone]. split.
    + intros p Hp. now rewrite Hrun, (Hsome p Hp).
    + intros Hp. now rewrite Hrun, (Hnone Hp).
  - intros H1 H2 H3. destruct (Hplain H1 H2 H3) as [Hsome Hnone]. split.
    + intros p Hp. now rewrite Hrun, (Hsome p Hp).
    + intros Hp. now rewrite Hrun, (Hnone Hp).
  - intros H1 H2. now rewrite Hrun, (Hraw H1 H2).
Qed.

(** An object in a fence tagged json, with text around the braces: what is
    decoded is the object. *)
Lemma extract_transaction_info_unwraps_witness :
  extract_transaction_info json_loads_sample
    (answering (Some ([newline] ++ fence_json ++ lit " here: " ++ falabella_text
                        ++ lit " done" ++ [newline] ++ fence ++ [newline])))
    (PStr (lit "Compra por 2,349 en Falabella")) initial_world
  = (try_except (loads_and_log json_loads_sample falabella_text)
       (parse_failed
          {| choices :=
               [ {| message_content :=
                      Some ([newline] ++ fence_json ++ lit " here: " ++ falabella_text
                              ++ lit " done" ++ [newline] ++ fence ++ [newline]) |} ] |}),
     initial_world).
Proof.
  refine (proj1 (proj1 (extract_transaction_info_unwraps json_loads_sample
                          (answering (Some ([newline] ++ fence_json ++ lit " here: "
                                              ++ falabella_text ++ lit " done"
                                              ++ [newline] ++ fence ++ [newline])))
                          (PStr (lit "Compra por 2,349 en Falabella")) initial_world
                          _ [] eq_refl)
                   eq_refl eq_refl) falabella_text _).
  exists (fence_json ++ lit " here: "), (removelast (tl falabella_text)),
         (lit " done" ++ [newline] ++ fence).
  split; [reflexivity|]. split; [|split; [|reflexivity]].
  - intros H. simpl in H. repeat (destruct H as [H|H]; [discriminate|]). exact H.
  - intros H. simpl in H. repeat (destruct H as [H|H]; [discriminate|]). exact H.
Defined.

(** The same answer, run: the decoded object is returned. *)
Example extract_transaction_info_unwraps_sample :
  fst (extract_transaction_info json_loads_sample
         (answering (Some ([newline] ++ fence_json ++ lit " here: " ++ falabella_text
                             ++ lit " done" ++ [newline] ++ fence ++ [newline])))
         (PStr (lit "Compra por 2,349 en Falabella")) initial_world)
  = Return (PDict falabella).
Proof. reflexivity. Qed.

Lemma py_print_returns (text : ftext) :
  forallb frag_encodable text = true -> py_print text = Return tt.
Proof. intros H. unfold py_print. now rewrite H. Qed.


(** The end of the [try] block, by cases on the decoder and on the log line. *)
Lemma loads_and_log_cases (json_loads : str -> result pyval) (payload : str) :
  loads_and_log json_loads payload
  = match json_loads payload with
    | Return parsed => if printable parsed then Return parsed else Raise UnicodeEncodeError
    | Raise e => Raise e
    end.
Proof.
  unfold loads_and_log, result_bind, py_print.
  destruct (json_loads payload) as [parsed|e]; [|reflexivity].
  cbn [forallb frag_encodable].
  change (encodable (check_mark :: lit " Parsed transaction info: ")) with true.
  cbn [andb]. rewrite andb_true_r. now destruct (printable parsed).
Qed.





(** Answers with a lone surrogate.  The JSON string with the escape [\ud83d]
    decodes, but the value cannot be logged: the fallback is returned.  Prose
    that holds the surrogate itself cannot be decoded, and the [except] block
    cannot log it either: [UnicodeEncodeError] leaves the function. *)
Example extract_transaction_info_surrogates :
  fst (extract_transaction_info json_loads_sample (answering (Some (quoted "\ud83d")))
         (PStr (lit "hola")) initial_world)
  = Return not_a_transaction /\
  fst (extract_transaction_info json_loads_sample
         (answering (Some (lit "sorry " ++ [55357%N])))
         (PStr (lit "hola")) initial_world)
  = Raise UnicodeEncodeError.
Proof. split; reflexivity. Qed.

(** The engine on five answers: JSON in a json fence, prose, a refusal without
    content, a decodable value of another shape, and an answer without
    choices. *)
Example extract_transaction_info_samples :
  let run content :=
    fst (extract_transaction_info json_loads_sample (answering content)
           (PStr (lit "hola")) initial_world) in
  run (Some (fence_json ++ [newline] ++ falabella_text ++ [newline] ++ fence))
  = Return (PDict falabella) /\
  run (Some (lit "I could not find a transaction.")) = Return not_a_transaction /\
  run None = Return not_a_transaction /\
  run (Some (lit " [] ")) = Return (PList []) /\
  fst (extract_transaction_info json_loads_sample
         {| chat_completions_create := fun _ => Return {| choices := [] |};
            telegram_post := fun _ _ => Return tt;
            sheets_append := fun _ => Return tt |}
         (PStr (lit "hola")) initial_world) = Raise IndexError.
Proof. repeat split. Qed.

(* ------------------------------------------------------------------------- *)
(** ** The notification handler *)

Lemma categorize_purchase_world (E : env) (description : pyval) (w : world) :
  snd (categorize_purchase E description w) = w.
Proof.
  unfold categorize_purchase, bind, lift, ret.
  destruct (chat_completions_create E _) as [resp|e]; [|reflexivity].
  destruct (first_content resp) as [o|e]; [|reflexivity].
  destruct (content_strip o); reflexivity.
Qed.

Lemma extract_transaction_info_fst (json_loads : str -> result pyval) (E : env)
      (text : pyval) (w : world) (r : result pyval) :
  fst (extract_transaction_info json_loads E text w) = r ->
  forall w', extract_transaction_info json_loads E text w' = (r, w').
Proof.
  intros H w'. rewrite extract_transaction_info_run in *. simpl in H. now rewrite H.
Qed.

Lemma py_get_printable (data : pyval) (k : str) (default v : pyval) :
  py_get data k default = Return v -> printable data = true.
Proof. destruct data; try discriminate; reflexivity. Qed.

(** A log line whose text can be written: the [print] returns. *)
Ltac logged :=
  match goal with
  | |- context [py_print ?t] =>
      rewrite (py_print_returns t)
        by (cbn [forallb frag_encodable printable];
            repeat match goal with
                   | H : printable _ = true |- _ => rewrite H
                   | H : encodable _ = true |- _ => rewrite H
                   end;
            reflexivity)
  end;
  exec.

Section Notification.

Variable json_loads : str -> result pyval.
Variable CHAT_ID : option str.

(** A result whose flag is falsy or absent: nothing happens. *)
Lemma handle_notification_skips (E : env) (req : Request) (text : pyval)
      (d : pydict) (w : world) :
  notification_with_text req text ->
  printable text = true ->
  fst (extract_transaction_info json_loads E text w) = Return (PDict d) ->
  truthy (card_flag d) = false ->
  handle_notification json_loads CHAT_ID E req w = (Return ok_true, w).
Proof.
  intros [data [Hreq Hget]] Hlog Hx Hflag.
  pose proof (py_get_printable _ _ _ _ Hget) as Hdata.
  unfold handle_notification. exec.
  exec_with Hreq. exec_with Hget. logged. logged.
  exec_with (extract_transaction_info_fst json_loads E text w _ Hx w). logged.
  unfold card_flag in Hflag. rewrite Hflag. reflexivity.
Qed.

(** A result whose flag is truthy and which has the three fields: the
    transaction is stored, then the message is posted. *)
Lemma handle_notification_stores (E : env) (req : Request) (text : pyval)
      (d : pydict) (w : world) (amount currency raw_description : pyval) :
  notification_with_text req text ->
  printable text = true ->
  fst (extract_transaction_info json_loads E text w) = Return (PDict d) ->
  truthy (card_flag d) = true ->
  holds_transaction d amount currency raw_description ->
  handle_notification json_loads CHAT_ID E req w
  = match telegram_post E (Configured CHAT_ID)
            (spent_message amount currency raw_description) with
    | Return _ =>
        (Return ok_true,
         with_message (with_purchase w (pending amount currency raw_description))
           (Configured CHAT_ID) (spent_message amount currency raw_description))
    | Raise e => (Raise e, with_purchase w (pending amount currency raw_description))
    end.
Proof.
  intros [data [Hreq Hget]] Hlog Hx Hflag [Ha [Hc Hr]].
  pose proof (py_get_printable _ _ _ _ Hget) as Hdata.
  unfold handle_notification. exec.
  exec_with Hreq. exec_with Hget. logged. logged.
  exec_with (extract_transaction_info_fst json_loads E text w _ Hx w). logged.
  unfold card_flag in Hflag. rewrite Hflag. exec.
  exec_with Ha. exec_with Hc. exec_with Hr.
  unfold send_telegram_message, with_purchase, with_message, spent_message, pending.
  cbn [last_purchase ledger outbox].
  destruct (telegram_post E _ _); reflexivity.
Qed.

(** C5, as the code has it.  When the handler has logged the notification
    text and the extraction result is an object whose [is_credit_card] entry
    is absent or falsy (the fallback [{"is_credit_card": False}] among them),
    the handler returns [{"ok": True}], leaves the pending transaction, the
    ledger and the outbox as they were, and does the same when the request is
    served again. *)
Theorem handle_notification_no_transaction (E : env) (req : Request) (text : pyval)
        (d : pydict) (w : world) :
  notification_with_text req text ->
  printable text = true ->
  fst (extract_transaction_info json_loads E text w) = Return (PDict d) ->
  truthy (card_flag d) = false \/ PDict d = not_a_transaction ->
  handle_notification json_loads CHAT_ID E req w = (Return ok_true, w) /\
  handle_notification json_loads CHAT_ID E req
    (snd (handle_notification json_loads CHAT_ID E req w)) = (Return ok_true, w).
Proof.
  intros Hreq Hlog Hx Hflag.
  assert (Hflag' : truthy (card_flag d) = false).
  { destruct Hflag as [H|H]; [exact H|]. injection H as ->. reflexivity. }
  pose proof (handle_notification_skips E req text d w Hreq Hlog Hx Hflag') as Hrun.
  split; [exact Hrun|]. rewrite Hrun. exact Hrun.
Qed.

(** C10. The flag is tested by truthiness and the three fields are read
    unguarded: once the handler has logged the notification text and obtained
    a result whose flag is truthy and which lacks one of [amount],
    [currency], [raw_description], it raises [KeyError] for the first missing
    key; nothing is stored, nothing is sent, and [{"ok": True}] is not
    returned. *)
Theorem handle_notification_missing_key (E : env) (req : Request) (text : pyval)
      (d : pydict) (w : world) (k : str) :
  notification_with_text req text ->
  printable text = true ->
  fst (extract_transaction_info json_loads E text w) = Return (PDict d) ->
  truthy (card_flag d) = true ->
  In k [lit "amount"; lit "currency"; lit "raw_description"] ->
  dict_lookup d k = None ->
  exists k', In k' [lit "amount"; lit "currency"; lit "raw_description"] /\
             dict_lookup d k' = None /\
             handle_notification json_loads CHAT_ID E req w = (Raise (KeyError k'), w).
Proof.
  intros [data [Hreq Hget]] Hlog Hx Hflag Hk Hmiss.
  pose proof (py_get_printable _ _ _ _ Hget) as Hdata.
  unfold handle_notification. exec.
  exec_with Hreq. exec_with Hget. logged. logged.
  exec_with (extract_transaction_info_fst json_loads E text w _ Hx w). logged.
  unfold card_flag in Hflag. rewrite Hflag. exec.
  destruct (dict_lookup d (lit "amount")) as [a|] eqn:Ha; exec.
  2: { exists (lit "amount"). split; [now left | split; [assumption | reflexivity]]. }
  destruct (dict_lookup d (lit "currency")) as [c|] eqn:Hc; exec.
  2: { exists (lit "currency"). split; [right; now left | split; [assumption | reflexivity]]. }
  destruct (dict_lookup d (lit "raw_description")) as [r|] eqn:Hr; exec.
  2: { exists (lit "raw_description").
       split; [right; right; now left | split; [assumption | reflexivity]]. }
  exfalso. destruct Hk as [<-|[<-|[<-|[]]]]; congruence.
Qed.

End Notification.

Lemma handle_notification_no_transaction_witness :
  handle_notification json_loads_sample (Some (lit "42")) (answering (Some no_card_text))
    (notification_request "Your statement is ready") initial_world
  = (Return ok_true, initial_world) /\
  handle_notification json_loads_sample (Some (lit "42")) (answering (Some no_card_text))
    (notification_request "Your statement is ready")
    (snd (handle_notification json_loads_sample (Some (lit "42"))
            (answering (Some no_card_text))
            (notification_request "Your statement is ready") initial_world))
  = (Return ok_true, initial_world).
Proof.
  apply (handle_notification_no_transaction json_loads_sample (Some (lit "42"))
           (answering (Some no_card_text)) (notification_request "Your statement is ready")
           (PStr (lit "Your statement is ready")) [(lit "is_credit_card", PBool false)]
           initial_world).
  - exists (PDict [ (lit "notification", PStr (lit "Your statement is ready")) ]).
    split; reflexivity.
  - reflexivity.
  - reflexivity.
  - left. reflexivity.
Defined.

(** The model answers with the flag as the string ["false"]: the result does
    not have [is_credit_card] true, yet the transaction is stored and the
    message is sent. *)
Lemma handle_notification_string_flag :
  fst (extract_transaction_info json_loads_sample (answering (Some string_flag_text))
         (PStr (lit "Your statement is ready")) initial_world)
  = Return (PDict string_flag) /\
  card_flag string_flag = PStr (lit "false") /\
  handle_notification json_loads_sample (Some (lit "42")) (answering (Some string_flag_text))
    (notification_request "Your statement is ready") initial_world
  = (Return ok_true,
     {| last_purchase := pending (PInt 5) (PStr (lit "USD")) (PStr (lit "Shop"));
        ledger := [];
        outbox := [ (Configured (Some (lit "42")),
                     spent_message (PInt 5) (PStr (lit "USD")) (PStr (lit "Shop"))) ] |}).
Proof. repeat split. Qed.

(** A result that is not an object: [txn_info.get] does not exist. *)
Example handle_notification_array :
  handle_notification json_loads_sample (Some (lit "42")) (answering (Some (lit "[]")))
    (notification_request "Your statement is ready") initial_world
  = (Raise (AttributeError (lit "get")), initial_world).
Proof. reflexivity. Qed.

(** A notification text with a lone surrogate: the log line of the handler
    raises before the extraction, whatever the model would have answered. *)
Example handle_notification_surrogate :
  handle_notification json_loads_sample (Some (lit "42")) (answering (Some falabella_text))
    {| req_json := Return (PDict [ (lit "notification", PStr [55357%N]) ]) |} initial_world
  = (Raise UnicodeEncodeError, initial_world).
Proof. reflexivity. Qed.

Lemma handle_notification_missing_key_witness :
  exists k', In k' [lit "amount"; lit "currency"; lit "raw_description"] /\
             dict_lookup partial k' = None /\
             handle_notification json_loads_sample (Some (lit "42"))
               (answering (Some partial_text)) (notification_request "Compra por 5")
               initial_world
             = (Raise (KeyError k'), initial_world).
Proof.
  apply (handle_notification_missing_key json_loads_sample (Some (lit "42"))
           (answering (Some partial_text)) (notification_request "Compra por 5")
           (PStr (lit "Compra por 5")) partial initial_world (lit "raw_description")).
  - exists (PDict [ (lit "notification", PStr (lit "Compra por 5")) ]). split; reflexivity.
  - reflexivity.
  - reflexivity.
  - reflexivity.
  - right. right. left. reflexivity.
  - reflexivity.
Defined.

(* ------------------------------------------------------------------------- *)
(** ** The reply handler *)

Lemma categorize_purchase_fst (E : env) (description : pyval) (w : world) (r : result str) :
  fst (categorize_purchase E description w) = r ->
  categorize_purchase E description w = (r, w).
Proof.
  intros H. pose proof (categorize_purchase_world E description w) as Hw.
  destruct (categorize_purchase E description w) as [r' w']. simpl in *. congruence.
Qed.

Lemma categories_encodable (c : str) : In c categories -> encodable c = true.
Proof.
  unfold categories. intros H.
  repeat (destruct H as [<-|H]; [reflexivity|]). destruct H.
Qed.

(** The category the classifier returned can be logged. *)
Lemma category_encodable (E : env) (description : pyval) (w : world) (c : str) :
  fst (categorize_purchase E description w) = Return c -> encodable c = true.
Proof.
  intros H. apply categories_encodable.
  apply (categorize_purchase_member E description w w c).
  pose proof (categorize_purchase_world E description w) as Hw.
  destruct (categorize_purchase E description w) as [r w']. simpl in *. congruence.
Qed.

Lemma truthy_text (t : str) : t <> [] -> truthy (PStr t) = true.
Proof. destruct t; [contradiction | reflexivity]. Qed.

(** A reply with text, a category, a stored transaction: the row is written,
    then the acknowledgment is posted. *)
Lemma telegram_webhook_merges (E : env) (req : Request) (id text : pyval) (c : str)
      (w : world) (amount currency raw_description : pyval) :
  reply_with_text req id text ->
  truthy text = true ->
  fst (categorize_purchase E text w) = Return c ->
  holds_transaction (last_purchase w) amount currency raw_description ->
  telegram_webhook E req w
  = match sheets_append E (expense_row amount currency raw_description text c) with
    | Raise e => (Raise e, w)
    | Return _ =>
        match telegram_post E (StrOf id) (categorized_message c) with
        | Return _ =>
            (Return ok_true,
             with_message (with_row w (expense_row amount currency raw_description text c))
               (StrOf id) (categorized_message c))
        | Raise e =>
            (Raise e, with_row w (expense_row amount currency raw_description text c))
        end
    end.
Proof.
  intros [body [message [chat [H1 [H2 [H3 [H4 H5]]]]]]] Ht Hc [Ha [Hcu Hr]].
  unfold telegram_webhook. exec.
  exec_with H1. exec_with H2. exec_with H3. exec_with H4. exec_with H5.
  rewrite Ht. cbn [negb]. exec.
  exec_with (categorize_purchase_fst E text w _ Hc).
  pose proof (category_encodable E text w c Hc) as Henc. logged.
  exec_with Ha. exec_with Hcu. exec_with Hr.
  unfold write_to_sheets, send_telegram_message, with_row, with_message,
    expense_row, categorized_message.
  destruct (sheets_append E _); [|reflexivity].
  cbn [last_purchase ledger outbox].
  destruct (telegram_post E _ _); reflexivity.
Qed.

(** C4. A reply with non-empty text [t] arrives while the store holds a
    transaction, and the classifier gives [c]: the row handed to the ledger is
    [[amount, currency, raw_description, t, c]], and it is the one row the
    ledger gains (none when the ledger service raises). *)
Theorem telegram_webhook_row (E : env) (req : Request) (id : pyval) (t c : str)
        (w : world) (amount currency raw_description : pyval) :
  reply_with_text req id (PStr t) ->
  t <> [] ->
  holds_transaction (last_purchase w) amount currency raw_description ->
  fst (categorize_purchase E (PStr t) w) = Return c ->
  ledger (snd (telegram_webhook E req w))
  = match sheets_append E [amount; currency; raw_description; PStr t; PStr c] with
    | Return _ => ledger w ++ [[amount; currency; raw_description; PStr t; PStr c]]
    | Raise _ => ledger w
    end.
Proof.
  intros Hreq Ht Hp Hc.
  rewrite (telegram_webhook_merges E req id (PStr t) c w amount currency raw_description
             Hreq (truthy_text t Ht) Hc Hp).
  unfold expense_row.
  destruct (sheets_append E _) as [u|e]; [|reflexivity].
  destruct (telegram_post E _ _); reflexivity.
Qed.

(** The reply of the second end-to-end scenario. *)
Lemma telegram_webhook_row_witness :
  ledger (snd (telegram_webhook (answering (Some (lit "Eating Out")))
                 (reply_request 42 "lunch with friends")
                 (with_purchase initial_world
                    (pending (PInt 2349) (PStr (lit "CLP")) (PStr (lit "Falabella"))))))
  = match sheets_append (answering (Some (lit "Eating Out")))
            [ PInt 2349; PStr (lit "CLP"); PStr (lit "Falabella");
              PStr (lit "lunch with friends"); PStr (lit "Eating Out") ] with
    | Return _ =>
        ledger (with_purchase initial_world
                  (pending (PInt 2349) (PStr (lit "CLP")) (PStr (lit "Falabella"))))
        ++ [[ PInt 2349; PStr (lit "CLP"); PStr (lit "Falabella");
              PStr (lit "lunch with friends"); PStr (lit "Eating Out") ]]
    | Raise _ =>
        ledger (with_purchase initial_world
                  (pending (PInt 2349) (PStr (lit "CLP")) (PStr (lit "Falabella"))))
    end.
Proof.
  apply (telegram_webhook_row (answering (Some (lit "Eating Out")))
           (reply_request 42 "lunch with friends") (PInt 42)
           (lit "lunch with friends") (lit "Eating Out")).
  - exists (PDict [ (lit "message",
                     PDict [ (lit "chat", PDict [ (lit "id", PInt 42) ]);
                             (lit "text", PStr (lit "lunch with friends")) ]) ]),
           (PDict [ (lit "chat", PDict [ (lit "id", PInt 42) ]);
                    (lit "text", PStr (lit "lunch with friends")) ]),
           (PDict [ (lit "id", PInt 42) ]).
    repeat split.
  - discriminate.
  - repeat split.
  - reflexivity.
Defined.

(** The two end-to-end scenarios, one after the other. *)
Example end_to_end :
  let E1 := answering (Some falabella_text) in
  let w1 := snd (handle_notification json_loads_sample (Some (lit "42")) E1
                   (notification_request "Se realizo una compra por 2,349 en Falabella")
                   initial_world) in
  let E2 := answering (Some (lit "Eating Out")) in
  let run2 := telegram_webhook E2 (reply_request 42 "lunch with friends") w1 in
  last_purchase w1 = pending (PInt 2349) (PStr (lit "CLP")) (PStr (lit "Falabella")) /\
  fst run2 = Return ok_true /\
  ledger (snd run2) = [[ PInt 2349; PStr (lit "CLP"); PStr (lit "Falabella");
                         PStr (lit "lunch with friends"); PStr (lit "Eating Out") ]] /\
  outbox (snd run2)
  = [ (Configured (Some (lit "42")),
       spent_message (PInt 2349) (PStr (lit "CLP")) (PStr (lit "Falabella")));
      (StrOf (PInt 42), categorized_message (lit "Eating Out")) ].
Proof. repeat split. Qed.

(** Walk through a handler, splitting on every outcome. *)
Ltac walk :=
  repeat (exec;
          match goal with
          | |- context [categorize_purchase ?E ?d ?w] =>
              let r := fresh "r" in
              let w' := fresh "w" in
              let H := fresh "H" in
              pose proof (categorize_purchase_world E d w) as H;
              destruct (categorize_purchase E d w) as [r w'];
              cbn [snd] in H; subst w'
          | |- context [match ?x with _ => _ end] =>
              lazymatch x with
              | context [match _ with _ => _ end] => fail
              | _ => destruct x eqn:?
              end
          end).

Lemma telegram_webhook_pending (E : env) (req : Request) (w : world) :
  last_purchase (snd (telegram_webhook E req w)) = last_purchase w.
Proof.
  unfold telegram_webhook, write_to_sheets, send_telegram_message. walk; reflexivity.
Qed.

Lemma telegram_webhook_ledger (E : env) (req : Request) (w : world)
      (amount currency raw_description : pyval) :
  holds_transaction (last_purchase w) amount currency raw_description ->
  ledger (snd (telegram_webhook E req w)) = ledger w \/
  exists text c,
    ledger (snd (telegram_webhook E req w))
    = ledger w ++ [expense_row amount currency raw_description text c].
Proof.
  intros [Ha [Hc Hr]].
  unfold telegram_webhook, write_to_sheets, send_telegram_message. walk;
    try (left; reflexivity);
    right; cbn [snd ledger]; unfold expense_row;
    repeat match goal with
           | H : dict_lookup _ _ = Some _ |- _ => rewrite H in *
           end;
    repeat match goal with
           | H : Some _ = Some _ |- _ => injection H as <-
           end;
    eexists; eexists; reflexivity.
Qed.

Lemma serve_replies_pending (rs : list (env * Request)) (w : world) :
  last_purchase (serve_replies rs w) = last_purchase w.
Proof.
  revert w; induction rs as [|[E req] rs IH]; intros w; simpl; [reflexivity|].
  rewrite IH. apply telegram_webhook_pending.
Qed.

Lemma serve_replies_rows (rs : list (env * Request)) (w : world)
      (amount currency raw_description : pyval) :
  holds_transaction (last_purchase w) amount currency raw_description ->
  exists rows,
    ledger (serve_replies rs w) = ledger w ++ rows /\
    Forall (fun row => exists text c,
                row = expense_row amount currency raw_description text c) rows.
Proof.
  revert w; induction rs as [|[E req] rs IH]; intros w Hp; simpl.
  - exists []. split; [now rewrite app_nil_r | constructor].
  - assert (Hp' : holds_transaction (last_purchase (snd (telegram_webhook E req w)))
                    amount currency raw_description)
      by (now rewrite telegram_webhook_pending).
    destruct (IH _ Hp') as [rows [Hrows Hall]].
    destruct (telegram_webhook_ledger E req w amount currency raw_description Hp)
      as [Hsame | [text [c Hrow]]].
    + exists rows. split; [congruence | assumption].
    + exists (expense_row amount currency raw_description text c :: rows). split.
      * rewrite Hrows, Hrow, <- app_assoc. reflexivity.
      * constructor; [now exists text, c | assumption].
Qed.

(** C7. The reply path reads [last_purchase] and never writes it: after any
    reply, and after any sequence of replies, the store holds what it held;
    every row such a sequence appends carries the amount, currency and
    description of that same stored transaction. *)
Theorem telegram_webhook_keeps_pending (w : world) :
  (forall E req, last_purchase (snd (telegram_webhook E req w)) = last_purchase w) /\
  (forall rs, last_purchase (serve_replies rs w) = last_purchase w) /\
  (forall rs amount currency raw_description,
      holds_transaction (last_purchase w) amount currency raw_description ->
      exists rows,
        ledger (serve_replies rs w) = ledger w ++ rows /\
        Forall (fun row => exists text c,
                    row = expense_row amount currency raw_description text c) rows).
Proof.
  split; [|split].
  - intros E req. apply telegram_webhook_pending.
  - intros rs. apply serve_replies_pending.
  - intros rs amount currency raw_description. apply serve_replies_rows.
Qed.

Lemma telegram_webhook_keeps_pending_witness :
  exists rows,
    ledger (serve_replies
              [ (answering (Some (lit "Eating Out")), reply_request 42 "lunch with friends");
                (answering (Some (lit "Travel")), reply_request 42 "train to the coast") ]
              (with_purchase initial_world
                 (pending (PInt 2349) (PStr (lit "CLP")) (PStr (lit "Falabella")))))
    = ledger (with_purchase initial_world
                (pending (PInt 2349) (PStr (lit "CLP")) (PStr (lit "Falabella"))))
      ++ rows /\
    Forall (fun row => exists text c,
                row = expense_row (PInt 2349) (PStr (lit "CLP")) (PStr (lit "Falabella"))
                        text c) rows.
Proof.
  apply (proj2 (proj2 (telegram_webhook_keeps_pending
                         (with_purchase initial_world
                            (pending (PInt 2349) (PStr (lit "CLP"))
                               (PStr (lit "Falabella"))))))).
  repeat split.
Defined.

(** Two replies in a row against one stored transaction. *)
Example two_replies :
  let w0 := with_purchase initial_world
              (pending (PInt 2349) (PStr (lit "CLP")) (PStr (lit "Falabella"))) in
  let w2 := serve_replies
              [ (answering (Some (lit "Eating Out")), reply_request 42 "lunch with friends");
                (answering (Some (lit "Travel")), reply_request 42 "train to the coast") ]
              w0 in
  last_purchase w2 = last_purchase w0 /\
  ledger w2
  = [ [ PInt 2349; PStr (lit "CLP"); PStr (lit "Falabella");
        PStr (lit "lunch with friends"); PStr (lit "Eating Out") ];
      [ PInt 2349; PStr (lit "CLP"); PStr (lit "Falabella");
        PStr (lit "train to the coast"); PStr (lit "Travel") ] ].
Proof. split; reflexivity. Qed.

(** C9. A reply with non-empty text arrives while [last_purchase] is still
    [{}]: the handler raises and changes nothing, so no row reaches the
    ledger; once the classifier has answered, the exception is the
    [KeyError] of the unguarded [last_purchase["amount"]]. *)
Theorem telegram_webhook_nothing_pending (E : env) (req : Request) (id : pyval) (t : str)
        (w : world) :
  reply_with_text req id (PStr t) ->
  t <> [] ->
  last_purchase w = [] ->
  (exists e, telegram_webhook E req w = (Raise e, w)) /\
  (forall c, fst (categorize_purchase E (PStr t) w) = Return c ->
             telegram_webhook E req w = (Raise (KeyError (lit "amount")), w)).
Proof.
  intros [body [message [chat [H1 [H2 [H3 [H4 H5]]]]]]] Ht Hempty.
  assert (Hrun : telegram_webhook E req w
                 = match fst (categorize_purchase E (PStr t) w) with
                   | Return _ => (Raise (KeyError (lit "amount")), w)
                   | Raise e => (Raise e, w)
                   end).
  { unfold telegram_webhook. exec.
    exec_with H1. exec_with H2. exec_with H3. exec_with H4. exec_with H5.
    rewrite (truthy_text t Ht). cbn [negb]. exec.
    rewrite (categorize_purchase_fst E (PStr t) w _ eq_refl).
    destruct (fst (categorize_purchase E (PStr t) w)) as [c|e] eqn:Hc; exec; [|reflexivity].
    pose proof (category_encodable E (PStr t) w c Hc) as Henc. logged.
    rewrite Hempty. reflexivity. }
  split.
  - rewrite Hrun. destruct (fst (categorize_purchase E (PStr t) w)); eexists; reflexivity.
  - intros c Hc. now rewrite Hrun, Hc.
Qed.

Lemma telegram_webhook_nothing_pending_witness :
  (exists e, telegram_webhook (answering (Some (lit "Transportation")))
               (reply_request 42 "taxi to the airport") initial_world
             = (Raise e, initial_world)) /\
  (forall c, fst (categorize_purchase (answering (Some (lit "Transportation")))
                    (PStr (lit "taxi to the airport")) initial_world) = Return c ->
             telegram_webhook (answering (Some (lit "Transportation")))
               (reply_request 42 "taxi to the airport") initial_world
             = (Raise (KeyError (lit "amount")), initial_world)).
Proof.
  apply (telegram_webhook_nothing_pending (answering (Some (lit "Transportation")))
           (reply_request 42 "taxi to the airport") (PInt 42) (lit "taxi to the airport")
           initial_world).
  - exists (PDict [ (lit "message",
                     PDict [ (lit "chat", PDict [ (lit "id", PInt 42) ]);
                             (lit "text", PStr (lit "taxi to the airport")) ]) ]),
           (PDict [ (lit "chat", PDict [ (lit "id", PInt 42) ]);
                    (lit "text", PStr (lit "taxi to the airport")) ]),
           (PDict [ (lit "id", PInt 42) ]).
    repeat split.
  - discriminate.
  - reflexivity.
Defined.

(* ------------------------------------------------------------------------- *)
(** ** The two handlers together *)

Lemma handle_notification_pending (json_loads : str -> result pyval) (CHAT_ID : option str)
      (E : env) (req : Request) (text : pyval) (d : pydict) (w : world)
      (amount currency raw_description : pyval) :
  notification_with_text req text ->
  printable text = true ->
  fst (extract_transaction_info json_loads E text w) = Return (PDict d) ->
  truthy (card_flag d) = true ->
  holds_transaction d amount currency raw_description ->
  last_purchase (snd (handle_notification json_loads CHAT_ID E req w))
  = pending amount currency raw_description.
Proof.
  intros Hreq Hlog Hx Hflag Hd.
  rewrite (handle_notification_stores json_loads CHAT_ID E req text d w
             amount currency raw_description Hreq Hlog Hx Hflag Hd).
  destruct (telegram_post E _ _); reflexivity.
Qed.

(** The ledger after a reply that reaches the merge. *)
Lemma telegram_webhook_ledger_row (E : env) (req : Request) (id : pyval) (t c : str)
      (w : world) (amount currency raw_description : pyval) :
  reply_with_text req id (PStr t) ->
  t <> [] ->
  holds_transaction (last_purchase w) amount currency raw_description ->
  fst (categorize_purchase E (PStr t) w) = Return c ->
  ledger (snd (telegram_webhook E req w))
  = match sheets_append E [amount; currency; raw_description; PStr t; PStr c] with
    | Return _ => ledger w ++ [[amount; currency; raw_description; PStr t; PStr c]]
    | Raise _ => ledger w
    end.
Proof.
  intros Hreq Ht Hp Hc.
  rewrite (telegram_webhook_merges E req id (PStr t) c w amount currency raw_description
             Hreq (truthy_text t Ht) Hc Hp).
  unfold expense_row.
  destruct (sheets_append E _); [|reflexivity].
  destruct (telegram_post E _ _); reflexivity.
Qed.

Lemma pending_holds (amount currency raw_description : pyval) :
  holds_transaction (pending amount currency raw_description)
    amount currency raw_description.
Proof. repeat split. Qed.

(** C6. The write to [last_purchase] is a plain assignment: after a
    notification that yields transaction A and then one that yields B (each
    text logged, each result with a truthy flag and the three fields), the
    store is exactly B's three fields, and the row of the next reply is built
    from B's amount, currency and description. *)
Theorem last_notification_wins (json_loads : str -> result pyval) (CHAT_ID : option str)
        (EA EB : env) (reqA reqB : Request) (textA textB : pyval) (dA dB : pydict)
        (w : world) (amountA currencyA descriptionA amountB currencyB descriptionB : pyval) :
  notification_with_text reqA textA ->
  printable textA = true ->
  fst (extract_transaction_info json_loads EA textA w) = Return (PDict dA) ->
  truthy (card_flag dA) = true ->
  holds_transaction dA amountA currencyA descriptionA ->
  let wA := snd (handle_notification json_loads CHAT_ID EA reqA w) in
  notification_with_text reqB textB ->
  printable textB = true ->
  fst (extract_transaction_info json_loads EB textB wA) = Return (PDict dB) ->
  truthy (card_flag dB) = true ->
  holds_transaction dB amountB currencyB descriptionB ->
  let wB := snd (handle_notification json_loads CHAT_ID EB reqB wA) in
  last_purchase wA = pending amountA currencyA descriptionA /\
  last_purchase wB = pending amountB currencyB descriptionB /\
  forall E req id t c,
    reply_with_text req id (PStr t) ->
    t <> [] ->
    fst (categorize_purchase E (PStr t) wB) = Return c ->
    ledger (snd (telegram_webhook E req wB))
    = match sheets_append E [amountB; currencyB; descriptionB; PStr t; PStr c] with
      | Return _ => ledger wB ++ [[amountB; currencyB; descriptionB; PStr t; PStr c]]
      | Raise _ => ledger wB
      end.
Proof.
  intros HreqA HlogA HxA HflagA HdA wA HreqB HlogB HxB HflagB HdB wB.
  assert (HA : last_purchase wA = pending amountA currencyA descriptionA)
    by (apply (handle_notification_pending json_loads CHAT_ID EA reqA textA dA); assumption).
  assert (HB : last_purchase wB = pending amountB currencyB descriptionB)
    by (apply (handle_notification_pending json_loads CHAT_ID EB reqB textB dB); assumption).
  split; [exact HA|]. split; [exact HB|].
  intros E req id t c Hreq Ht Hc.
  apply (telegram_webhook_ledger_row E req id t c wB); try assumption.
  rewrite HB. apply pending_holds.
Qed.

Lemma last_notification_wins_witness :
  let wA := snd (handle_notification json_loads_sample (Some (lit "42"))
                   (answering (Some falabella_text))
                   (notification_request "Compra por 2,349 en Falabella") initial_world) in
  let wB := snd (handle_notification json_loads_sample (Some (lit "42"))
                   (answering (Some cafe_text))
                   (notification_request "Purchase of USD 990 at Cafe") wA) in
  last_purchase wA = pending (PInt 2349) (PStr (lit "CLP")) (PStr (lit "Falabella")) /\
  last_purchase wB = pending (PInt 990) (PStr (lit "USD")) (PStr (lit "Cafe")) /\
  forall E req id t c,
    reply_with_text req id (PStr t) ->
    t <> [] ->
    fst (categorize_purchase E (PStr t) wB) = Return c ->
    ledger (snd (telegram_webhook E req wB))
    = match sheets_append E [PInt 990; PStr (lit "USD"); PStr (lit "Cafe"); PStr t; PStr c] with
      | Return _ =>
          ledger wB ++ [[PInt 990; PStr (lit "USD"); PStr (lit "Cafe"); PStr t; PStr c]]
      | Raise _ => ledger wB
      end.
Proof.
  apply (last_notification_wins json_loads_sample (Some (lit "42"))
           (answering (Some falabella_text)) (answering (Some cafe_text))
           (notification_request "Compra por 2,349 en Falabella")
           (notification_request "Purchase of USD 990 at Cafe")
           (PStr (lit "Compra por 2,349 en Falabella"))
           (PStr (lit "Purchase of USD 990 at Cafe"))
           falabella cafe initial_world).
  - exists (PDict [ (lit "notification", PStr (lit "Compra por 2,349 en Falabella")) ]).
    split; reflexivity.
  - reflexivity.
  - reflexivity.
  - reflexivity.
  - repeat split.
  - exists (PDict [ (lit "notification", PStr (lit "Purchase of USD 990 at Cafe")) ]).
    split; reflexivity.
  - reflexivity.
  - reflexivity.
  - reflexivity.
  - repeat split.
Defined.

(** Notification A, notification B, then a reply: the row is B's. *)
Example overwrite_then_reply :
  let wA := snd (handle_notification json_loads_sample (Some (lit "42"))
                   (answering (Some falabella_text))
                   (notification_request "Compra por 2,349 en Falabella") initial_world) in
  let wB := snd (handle_notification json_loads_sample (Some (lit "42"))
                   (answering (Some cafe_text))
                   (notification_request "Purchase of USD 990 at Cafe") wA) in
  ledger (snd (telegram_webhook (answering (Some (lit "Eating Out")))
                 (reply_request 42 "coffee") wB))
  = [[ PInt 990; PStr (lit "USD"); PStr (lit "Cafe"); PStr (lit "coffee");
       PStr (lit "Eating Out") ]].
Proof. reflexivity. Qed.

(* ------------------------------------------------------------------------- *)
(** ** What the endpoints answer *)












(** The requests that are answered: no transaction, no text, no body fields. *)
Example handlers_answer_ok :
  fst (handle_notification json_loads_sample None (answering (Some (lit "not json")))
         (notification_request "Your statement is ready") initial_world)
  = Return ok_true /\
  fst (handle_notification json_loads_sample None (answering (Some no_card_text))
         {| req_json := Return (PDict []) |} initial_world)
  = Return ok_true /\
  fst (telegram_webhook openai_down {| req_json := Return (PDict []) |} initial_world)
  = Return ok_true /\
  fst (telegram_webhook openai_down (reply_request 42 EmptyString) initial_world)
  = Return ok_true.
Proof. repeat split. Qed.

(* ------------------------------------------------------------------------- *)
(** ** Whitespace and envelopes around the model's answer *)

Lemma lstrip_spaces (pre s : str) :
  forallb PyStr.isspace pre = true -> PyStr.lstrip (pre ++ s) = PyStr.lstrip s.
Proof.
  induction pre as [|c pre IH]; simpl; [reflexivity|].
  intros H. apply andb_true_iff in H as [Hc Hpre]. rewrite Hc. now apply IH.
Qed.

Lemma lstrip_app (s t : str) :
  PyStr.lstrip (s ++ t)
  = match PyStr.lstrip s with
    | [] => PyStr.lstrip t
    | _ :: _ => PyStr.lstrip s ++ t
    end.
Proof.
  induction s as [|c s IH]; simpl; [reflexivity|].
  destruct (PyStr.isspace c); [exact IH | reflexivity].
Qed.

Lemma rstrip_spaces (s post : str) :
  forallb PyStr.isspace post = true -> PyStr.rstrip (s ++ post) = PyStr.rstrip s.
Proof.
  intros H. unfold PyStr.rstrip. rewrite rev_app_distr, lstrip_spaces; [reflexivity|].
  now rewrite forallb_rev.
Qed.

Lemma strip_padding (pre s post : str) :
  forallb PyStr.isspace pre = true -> forallb PyStr.isspace post = true ->
  PyStr.strip (pre ++ s ++ post) = PyStr.strip s.
Proof.
  intros Hpre Hpost. unfold PyStr.strip.
  rewrite (lstrip_spaces pre _ Hpre), lstrip_app.
  destruct (PyStr.lstrip s) as [|c u] eqn:Hs.
  - replace (PyStr.lstrip post) with (@nil char); [reflexivity|].
    rewrite <- (app_nil_r post), (lstrip_spaces post [] Hpost). reflexivity.
  - now apply rstrip_spaces.
Qed.

Lemma strip_fixed (s : str) : no_edge_space s -> PyStr.strip s = s.
Proof.
  intros [Hhead Hlast]. unfold PyStr.strip.
  assert (Hl : PyStr.lstrip s = s).
  { destruct s as [|c t]; [reflexivity|]. simpl. now rewrite (Hhead c t eq_refl). }
  rewrite Hl. unfold PyStr.rstrip.
  destruct (rev s) as [|c t] eqn:Hrev.
  - apply (f_equal (@rev char)) in Hrev. rewrite rev_involutive in Hrev. now subst s.
  - apply (f_equal (@rev char)) in Hrev. rewrite rev_involutive in Hrev. simpl in Hrev.
    simpl. rewrite (Hlast (rev t) c Hrev). simpl. now rewrite Hrev.
Qed.

Lemma categories_fixed (c : str) : In c categories -> PyStr.strip c = c.
Proof.
  unfold categories. intros H.
  repeat (destruct H as [<-|H]; [reflexivity|]). destruct H.
Qed.

(** X1. Every category can be returned: when the model answers one of the 13
    categories, with any whitespace before and after it, [categorize_purchase]
    returns that category. *)
Theorem categorize_purchase_reaches (E : env) (description : pyval) (w : world)
        (c pre post : str) (rest : list choice) :
  In c categories ->
  forallb PyStr.isspace pre = true ->
  forallb PyStr.isspace post = true ->
  chat_completions_create E
    (CategorizeRequest (PyStr.join (lit ", ") categories) description)
  = Return {| choices := {| message_content := Some (pre ++ c ++ post) |} :: rest |} ->
  categorize_purchase E description w = (Return c, w).
Proof.
  intros Hin Hpre Hpost Hchat.
  rewrite (categorize_purchase_run E description w _ rest Hchat).
  rewrite (strip_padding pre c post Hpre Hpost), (categories_fixed c Hin).
  apply str_in_In in Hin. now rewrite Hin.
Qed.

Lemma categorize_purchase_reaches_witness :
  categorize_purchase
    (answering (Some ([9; 32]%N ++ lit "Personal Care" ++ [13; 10; 8239]%N)))
    (PStr (lit "haircut")) initial_world
  = (Return (lit "Personal Care"), initial_world).
Proof.
  apply (categorize_purchase_reaches
           (answering (Some ([9; 32]%N ++ lit "Personal Care" ++ [13; 10; 8239]%N)))
           (PStr (lit "haircut")) initial_world (lit "Personal Care")
           [9; 32]%N [13; 10; 8239]%N []).
  - apply str_in_In. reflexivity.
  - reflexivity.
  - reflexivity.
  - reflexivity.
Defined.

(** X2. [categorize_purchase] has no fallback for a failed call: an exception
    of the model call, an answer without choices and an answer whose content
    is [None] each raise, with the state untouched; a category is returned
    only when the first choice of the answer carries a string. *)
Theorem categorize_purchase_failures (E : env) (description : pyval) (w : world) :
  let request := CategorizeRequest (PyStr.join (lit ", ") categories) description in
  (forall e, chat_completions_create E request = Raise e ->
             categorize_purchase E description w = (Raise e, w)) /\
  (chat_completions_create E request = Return {| choices := [] |} ->
   categorize_purchase E description w = (Raise IndexError, w)) /\
  (forall rest,
      chat_completions_create E request
      = Return {| choices := {| message_content := None |} :: rest |} ->
      categorize_purchase E description w = (Raise (AttributeError (lit "strip")), w)) /\
  (forall c w', categorize_purchase E description w = (Return c, w') ->
                exists r rest,
                  chat_completions_create E request
                  = Return {| choices := {| message_content := Some r |} :: rest |}).
Proof.
  intros request. unfold categorize_purchase, bind, lift, ret. fold request.
  repeat split.
  - intros e H. now rewrite H.
  - intros H. now rewrite H.
  - intros rest H. now rewrite H.
  - intros c w'. destruct (chat_completions_create E request) as [[[|[[r|]] rest]]|e];
      try discriminate.
    intros _. now exists r, rest.
Qed.

(** X3. Whitespace around the model's answer does not matter to the
    extraction: the [try] block gives the same outcome on an answer and on the
    same answer with whitespace added before and after it. *)
Theorem parse_response_padding (json_loads : str -> result pyval)
        (s pre post : str) (rest rest' : list choice) :
  forallb PyStr.isspace pre = true ->
  forallb PyStr.isspace post = true ->
  parse_response json_loads
    {| choices := {| message_content := Some (pre ++ s ++ post) |} :: rest |}
  = parse_response json_loads
      {| choices := {| message_content := Some s |} :: rest' |}.
Proof.
  intros Hpre Hpost. unfold parse_response, first_content, content_strip, result_bind.
  cbn [choices message_content]. now rewrite (strip_padding pre s post Hpre Hpost).
Qed.

Lemma parse_response_padding_witness :
  parse_response json_loads_sample
    {| choices := [ {| message_content := Some ([10; 32]%N ++ cafe_text ++ [10]%N) |} ] |}
  = parse_response json_loads_sample
      {| choices := [ {| message_content := Some cafe_text |} ] |}.
Proof.
  apply (parse_response_padding json_loads_sample cafe_text [10; 32]%N [10]%N [] []);
    reflexivity.
Defined.

Lemma startswith_app (p t : str) : PyStr.startswith (p ++ t) p = true.
Proof. apply startswith_prefix. now exists t. Qed.

Lemma endswith_app (t p : str) : PyStr.endswith (t ++ p) p = true.
Proof. apply endswith_suffix. now exists t. Qed.

(** The three envelopes of a text in braces unwrap to the text. *)
Lemma select_payload_envelopes (m : str) :
  let object := lbrace :: m ++ [rbrace] in
  select_payload object = object /\
  select_payload (fence_json ++ newline :: object ++ newline :: fence) = object /\
  select_payload (fence ++ newline :: object ++ newline :: fence) = object.
Proof.
  intros object. split; [|split].
  - apply select_payload_raw. reflexivity.
  - rewrite select_payload_json.
    + apply braces_slice. exists (fence_json ++ [newline]), m, (newline :: fence).
      split; [|split; [|split]].
      * unfold object. rewrite <- !app_assoc. simpl. now rewrite <- app_assoc.
      * intros H. simpl in H. repeat (destruct H as [H|H]; [discriminate|]). exact H.
      * intros H. simpl in H. repeat (destruct H as [H|H]; [discriminate|]). exact H.
      * reflexivity.
    + apply startswith_app.
    + change (fence_json ++ newline :: object ++ newline :: fence)
        with (fence_json ++ (newline :: object) ++ newline :: fence).
      replace (fence_json ++ (newline :: object) ++ newline :: fence)
        with ((fence_json ++ (newline :: object) ++ [newline]) ++ fence).
      * apply endswith_app.
      * rewrite <- !app_assoc. reflexivity.
  - rewrite select_payload_generic.
    + apply lines_slice. exists fence, fence. split; [reflexivity|]. split.
      * intros H. simpl in H. repeat (destruct H as [H|H]; [discriminate|]). exact H.
      * intros H. simpl in H. repeat (destruct H as [H|H]; [discriminate|]). exact H.
    + reflexivity.
    + apply (startswith_app fence).
    + replace (fence ++ newline :: object ++ newline :: fence)
        with ((fence ++ (newline :: object) ++ [newline]) ++ fence).
      * apply endswith_app.
      * rewrite <- !app_assoc. reflexivity.
Qed.

Lemma py_slice_part {A : Type} (l : list A) (start stop : Z) :
  exists a b, l = a ++ py_slice l start stop ++ b.
Proof.
  unfold py_slice.
  set (i := Z.to_nat (clamp_index (Z.of_nat (length l)) start)).
  set (k := Z.to_nat (clamp_index (Z.of_nat (length l)) stop
                      - clamp_index (Z.of_nat (length l)) start)).
  exists (firstn i l), (skipn k (skipn i l)).
  now rewrite (firstn_skipn k), (firstn_skipn i).
Qed.

Lemma lines_cases (c : str) :
  (exists p, without_first_and_last_line c p) \/
  (forall p, ~ without_first_and_last_line c p).
Proof.
  destruct (find_spec c newline) as [[_ Hn] | [f [r [Hc [Hf _]]]]].
  - right. intros p [f [l [Hc _]]]. apply Hn. subst c. apply in_elt.
  - destruct (rfind_spec r newline) as [[_ Hn] | [m [l [Hr [Hl _]]]]].
    + right. intros p [f' [l' [Hc' [Hf' Hl']]]]. rewrite Hc in Hc'.
      apply first_occurrence_unique in Hc' as [_ Hr]; auto.
      apply Hn. subst r. apply in_elt.
    + left. exists m, f, l. subst r. auto.
Qed.

(** X4. The payload is always cut out of the answer: whatever the answer,
    [select_payload] returns a contiguous part of it, so the JSON decoder
    never sees a character the model did not send. *)
Theorem select_payload_part (c : str) :
  exists a b, c = a ++ select_payload c ++ b.
Proof.
  unfold select_payload.
  destruct (PyStr.startswith c fence_json && PyStr.endswith c fence).
  - apply py_slice_part.
  - destruct (PyStr.startswith c fence && PyStr.endswith c fence).
    + destruct (lines_cases c) as [[p Hp] | Hnone].
      * rewrite (lines_slice c p Hp). destruct Hp as [f [l [Hc _]]].
        exists (f ++ [newline]), (newline :: l). rewrite Hc at 1.
        now rewrite <- app_assoc.
      * rewrite (lines_few c Hnone). now exists [], c.
    + exists [], []. now rewrite app_nil_r.
Qed.

(** X5. An answer without choices escapes the [try]: the [except] block reads
    [response.choices[0]] again, so [extract_transaction_info] raises
    [IndexError] and returns no fallback. *)
Theorem extract_transaction_info_no_choices (json_loads : str -> result pyval) (E : env)
        (notification_text : pyval) (w : world) :
  chat_completions_create E (ExtractRequest notification_text)
  = Return {| choices := [] |} ->
  extract_transaction_info json_loads E notification_text w = (Raise IndexError, w).
Proof.
  intros H. rewrite extract_transaction_info_run, H. reflexivity.
Qed.

Lemma extract_transaction_info_no_choices_witness :
  extract_transaction_info json_loads_sample no_choices
    (PStr (lit "Compra por 2,349 en Falabella")) initial_world
  = (Raise IndexError, initial_world).
Proof.
  apply (extract_transaction_info_no_choices json_loads_sample no_choices
           (PStr (lit "Compra por 2,349 en Falabella")) initial_world).
  reflexivity.
Defined.

Lemma no_edge_space_ends (x y : char) (m : str) :
  PyStr.isspace x = false -> PyStr.isspace y = false -> no_edge_space (x :: m ++ [y]).
Proof.
  intros Hx Hy. split.
  - intros c t H. injection H as <- _. exact Hx.
  - intros t c H. change (x :: m ++ [y]) with ((x :: m) ++ [y]) in H.
    apply app_inj_tail in H as [_ <-]. exact Hy.
Qed.

(** X6. The extraction decodes the same text whatever the envelope: for a
    text that starts with an opening brace and ends with a closing brace, the
    [try] block hands exactly that text to the JSON decoder, and then logs the
    value, when the answer is the bare text, the text in a fence tagged json,
    or the text in a plain fence; whenever the decoded value can be logged (an
    object always can), the outcome of the block is the decoder's. *)
Theorem parse_response_envelopes (json_loads : str -> result pyval) (m : str)
        (rest : list choice) :
  let object := lbrace :: m ++ [rbrace] in
  let answer content := {| choices := {| message_content := Some content |} :: rest |} in
  (parse_response json_loads (answer object) = loads_and_log json_loads object /\
   parse_response json_loads (answer (fence_json ++ newline :: object ++ newline :: fence))
   = loads_and_log json_loads object /\
   parse_response json_loads (answer (fence ++ newline :: object ++ newline :: fence))
   = loads_and_log json_loads object) /\
  ((forall v, json_loads object = Return v -> printable v = true) ->
   parse_response json_loads (answer object) = json_loads object /\
   parse_response json_loads (answer (fence_json ++ newline :: object ++ newline :: fence))
   = json_loads object /\
   parse_response json_loads (answer (fence ++ newline :: object ++ newline :: fence))
   = json_loads object).
Proof.
  intros object answer.
  destruct (select_payload_envelopes m) as [Hraw [Hjson Hplain]]. fold object in Hraw, Hjson, Hplain.
  assert (Hlog : parse_response json_loads (answer object) = loads_and_log json_loads object /\
                 parse_response json_loads
                   (answer (fence_json ++ newline :: object ++ newline :: fence))
                 = loads_and_log json_loads object /\
                 parse_response json_loads
                   (answer (fence ++ newline :: object ++ newline :: fence))
                 = loads_and_log json_loads object).
  { unfold answer, parse_response, first_content, content_strip, result_bind.
    cbn [choices message_content].
    split; [|split].
    - rewrite strip_fixed; [now rewrite Hraw|].
      now apply no_edge_space_ends.
    - rewrite strip_fixed; [now rewrite Hjson|].
      replace (fence_json ++ newline :: object ++ newline :: fence)
        with (backtick :: ([backtick; backtick] ++ lit "json" ++ newline :: object
                             ++ [newline; backtick; backtick]) ++ [backtick]).
      + now apply no_edge_space_ends.
      + unfold fence_json, fence. simpl. rewrite <- !app_assoc. reflexivity.
    - rewrite strip_fixed; [now rewrite Hplain|].
      replace (fence ++ newline :: object ++ newline :: fence)
        with (backtick :: ([backtick; backtick] ++ newline :: object
                             ++ [newline; backtick; backtick]) ++ [backtick]).
      + now apply no_edge_space_ends.
      + unfold fence. simpl. rewrite <- !app_assoc. reflexivity. }
  split; [exact Hlog|].
  intros Hv. destruct Hlog as [H1 [H2 H3]]. rewrite H1, H2, H3.
  assert (Hsame : loads_and_log json_loads object = json_loads object).
  { rewrite loads_and_log_cases.
    destruct (json_loads object) as [v|e] eqn:Hj; [|reflexivity].
    now rewrite (Hv v eq_refl). }
  now rewrite Hsame.
Qed.

Lemma parse_response_envelopes_witness :
  parse_response json_loads_sample
    {| choices := [ {| message_content := Some cafe_text |} ] |}
  = json_loads_sample cafe_text /\
  parse_response json_loads_sample
    {| choices := [ {| message_content :=
                         Some (fence_json ++ newline :: cafe_text ++ newline :: fence) |} ] |}
  = json_loads_sample cafe_text /\
  parse_response json_loads_sample
    {| choices := [ {| message_content :=
                         Some (fence ++ newline :: cafe_text ++ newline :: fence) |} ] |}
  = json_loads_sample cafe_text.
Proof.
  apply (proj2 (parse_response_envelopes json_loads_sample (removelast (tl cafe_text)) [])).
  intros v Hv. injection Hv as <-. reflexivity.
Defined.

(* ------------------------------------------------------------------------- *)
(** ** Outcomes of the notification handler *)

(** Walk through [handle_notification], splitting on every outcome. *)
Ltac walk_notification :=
  repeat (exec;
          match goal with
          | |- context [extract_transaction_info ?jl ?E ?t ?w] =>
              rewrite (extract_transaction_info_run jl E t w)
          | |- context [match ?x with _ => _ end] =>
              lazymatch x with
              | context [match _ with _ => _ end] => fail
              | _ => destruct x eqn:?
              end
          end).

(** What one notification can do to the state. *)
Lemma handle_notification_effects (json_loads : str -> result pyval) (CHAT_ID : option str)
      (E : env) (req : Request) (w : world) :
  ledger (snd (handle_notification json_loads CHAT_ID E req w)) = ledger w /\
  ((last_purchase (snd (handle_notification json_loads CHAT_ID E req w)) = last_purchase w /\
    outbox (snd (handle_notification json_loads CHAT_ID E req w)) = outbox w) \/
   exists amount currency raw_description,
     last_purchase (snd (handle_notification json_loads CHAT_ID E req w))
     = pending amount currency raw_description /\
     ((outbox (snd (handle_notification json_loads CHAT_ID E req w)) = outbox w /\
       exists e, fst (handle_notification json_loads CHAT_ID E req w) = Raise e) \/
      (outbox (snd (handle_notification json_loads CHAT_ID E req w))
       = outbox w ++ [(Configured CHAT_ID, spent_message amount currency raw_description)] /\
       fst (handle_notification json_loads CHAT_ID E req w) = Return ok_true))).
Proof.
  unfold handle_notification, send_telegram_message. walk_notification;
    cbn [fst snd ledger outbox last_purchase];
    (split; [reflexivity|]);
    first [ left; split; reflexivity
          | right; do 3 eexists; split; [reflexivity|];
            first [ left; split; [reflexivity | eexists; reflexivity]
                  | right; split; reflexivity ] ].
Qed.

(** X7. [handle_notification] never writes to the ledger, and it posts at most
    one message, addressed to [CHAT_ID]: the announcement of the transaction
    that it has just stored. *)
Theorem handle_notification_frame (json_loads : str -> result pyval) (CHAT_ID : option str)
        (E : env) (req : Request) (w : world) :
  ledger (snd (handle_notification json_loads CHAT_ID E req w)) = ledger w /\
  (outbox (snd (handle_notification json_loads CHAT_ID E req w)) = outbox w \/
   exists amount currency raw_description,
     outbox (snd (handle_notification json_loads CHAT_ID E req w))
     = outbox w ++ [(Configured CHAT_ID, spent_message amount currency raw_description)] /\
     last_purchase (snd (handle_notification json_loads CHAT_ID E req w))
     = pending amount currency raw_description).
Proof.
  destruct (handle_notification_effects json_loads CHAT_ID E req w)
    as [Hl [[_ Ho] | [a [c [r [Hp [[Ho _] | [Ho _]]]]]]]].
  - split; [exact Hl | now left].
  - split; [exact Hl | now left].
  - split; [exact Hl | right]. now exists a, c, r.
Qed.

(** X8. A recognised transaction whose text was logged and whose
    announcement is posted: the handler
    answers [{"ok": True}], the store holds exactly the three fields of the
    result (its other keys are dropped), the ledger is as before, and the one
    new message is "You spent {amount} {currency} at '{raw_description}'.
    What was it?" for [CHAT_ID]. *)
Theorem handle_notification_announces (json_loads : str -> result pyval)
        (CHAT_ID : option str) (E : env) (req : Request) (text : pyval) (d : pydict)
        (w : world) (amount currency raw_description : pyval) (u : unit) :
  notification_with_text req text ->
  printable text = true ->
  fst (extract_transaction_info json_loads E text w) = Return (PDict d) ->
  truthy (card_flag d) = true ->
  holds_transaction d amount currency raw_description ->
  telegram_post E (Configured CHAT_ID) (spent_message amount currency raw_description)
  = Return u ->
  handle_notification json_loads CHAT_ID E req w
  = (Return ok_true,
     {| last_purchase := [ (lit "amount", amount); (lit "currency", currency);
                           (lit "raw_description", raw_description) ];
        ledger := ledger w;
        outbox := outbox w
                  ++ [ (Configured CHAT_ID,
                        [ Lit (lit "You spent "); Fmt amount; Lit (lit " "); Fmt currency;
                          Lit (lit " at '"); Fmt raw_description;
                          Lit (lit "'. What was it?") ]) ] |}).
Proof.
  intros Hreq Hlog Hx Hflag Hd Hpost.
  rewrite (handle_notification_stores json_loads CHAT_ID E req text d w
             amount currency raw_description Hreq Hlog Hx Hflag Hd), Hpost.
  reflexivity.
Qed.

Lemma handle_notification_announces_witness :
  handle_notification json_loads_sample (Some (lit "42")) (answering (Some falabella_text))
    (notification_request "Compra por 2,349 en Falabella") initial_world
  = (Return ok_true,
     {| last_purchase := [ (lit "amount", PInt 2349); (lit "currency", PStr (lit "CLP"));
                           (lit "raw_description", PStr (lit "Falabella")) ];
        ledger := ledger initial_world;
        outbox := outbox initial_world
                  ++ [ (Configured (Some (lit "42")),
                        [ Lit (lit "You spent "); Fmt (PInt 2349); Lit (lit " ");
                          Fmt (PStr (lit "CLP")); Lit (lit " at '");
                          Fmt (PStr (lit "Falabella")); Lit (lit "'. What was it?") ]) ] |}).
Proof.
  apply (handle_notification_announces json_loads_sample (Some (lit "42"))
           (answering (Some falabella_text))
           (notification_request "Compra por 2,349 en Falabella")
           (PStr (lit "Compra por 2,349 en Falabella")) falabella initial_world
           (PInt 2349) (PStr (lit "CLP")) (PStr (lit "Falabella")) tt).
  - exists (PDict [ (lit "notification", PStr (lit "Compra por 2,349 en Falabella")) ]).
    split; reflexivity.
  - reflexivity.
  - reflexivity.
  - reflexivity.
  - repeat split.
  - reflexivity.
Defined.

(** X9. The store is written before the message is posted and is not rolled
    back: for a recognised transaction whose text was logged, when the post to
    Telegram raises, the handler raises the same
    exception, the transaction stays in [last_purchase], and no message is
    recorded. *)
Theorem handle_notification_keeps_on_failure (json_loads : str -> result pyval)
        (CHAT_ID : option str) (E : env) (req : Request) (text : pyval) (d : pydict)
        (w : world) (amount currency raw_description : pyval) (e : exn) :
  notification_with_text req text ->
  printable text = true ->
  fst (extract_transaction_info json_loads E text w) = Return (PDict d) ->
  truthy (card_flag d) = true ->
  holds_transaction d amount currency raw_description ->
  telegram_post E (Configured CHAT_ID) (spent_message amount currency raw_description)
  = Raise e ->
  handle_notification json_loads CHAT_ID E req w
  = (Raise e,
     {| last_purchase := pending amount currency raw_description;
        ledger := ledger w;
        outbox := outbox w |}).
Proof.
  intros Hreq Hlog Hx Hflag Hd Hpost.
  rewrite (handle_notification_stores json_loads CHAT_ID E req text d w
             amount currency raw_description Hreq Hlog Hx Hflag Hd), Hpost.
  reflexivity.
Qed.

Lemma handle_notification_keeps_on_failure_witness :
  handle_notification json_loads_sample (Some (lit "42"))
    (answering_with (Some cafe_text) (Raise (ServiceError Telegram)) (Return tt))
    (notification_request "Purchase of USD 990 at Cafe") initial_world
  = (Raise (ServiceError Telegram),
     {| last_purchase := pending (PInt 990) (PStr (lit "USD")) (PStr (lit "Cafe"));
        ledger := ledger initial_world;
        outbox := outbox initial_world |}).
Proof.
  apply (handle_notification_keeps_on_failure json_loads_sample (Some (lit "42"))
           (answering_with (Some cafe_text) (Raise (ServiceError Telegram)) (Return tt))
           (notification_request "Purchase of USD 990 at Cafe")
           (PStr (lit "Purchase of USD 990 at Cafe")) cafe initial_world).
  - exists (PDict [ (lit "notification", PStr (lit "Purchase of USD 990 at Cafe")) ]).
    split; reflexivity.
  - reflexivity.
  - reflexivity.
  - reflexivity.
  - repeat split.
  - reflexivity.
Defined.

(* ------------------------------------------------------------------------- *)
(** ** Outcomes of the reply handler *)

(** X10. A reply without text is acknowledged and nothing else happens: when
    the text is missing, empty or otherwise falsy, [telegram_webhook] returns
    [{"ok": True}] with the state unchanged, whatever the services would have
    done (none of them is called). *)
Theorem telegram_webhook_no_text (E : env) (req : Request) (id text : pyval) (w : world) :
  reply_with_text req id text ->
  truthy text = false ->
  telegram_webhook E req w = (Return ok_true, w).
Proof.
  intros [body [message [chat [H1 [H2 [H3 [H4 H5]]]]]]] Ht.
  unfold telegram_webhook. exec.
  exec_with H1. exec_with H2. exec_with H3. exec_with H4. exec_with H5.
  rewrite Ht. reflexivity.
Qed.

Lemma telegram_webhook_no_text_witness :
  telegram_webhook openai_down
    {| req_json := Return (PDict [ (lit "message",
                                    PDict [ (lit "chat", PDict [ (lit "id", PInt 42) ]) ]) ]) |}
    initial_world
  = (Return ok_true, initial_world).
Proof.
  apply (telegram_webhook_no_text openai_down _ (PInt 42) (PStr []) initial_world).
  - exists (PDict [ (lit "message",
                     PDict [ (lit "chat", PDict [ (lit "id", PInt 42) ]) ]) ]),
           (PDict [ (lit "chat", PDict [ (lit "id", PInt 42) ]) ]),
           (PDict [ (lit "id", PInt 42) ]).
    repeat split.
  - reflexivity.
Defined.

(** X11. A reply that goes through: the handler answers [{"ok": True}], the
    store is as before, the ledger gains the merged row, and the one new
    message is "Got it. Categorized as: {category}", with the category of the
    row, for the chat the reply came from ([str] of its id), not for
    [CHAT_ID]. *)
Theorem telegram_webhook_acknowledges (E : env) (req : Request) (id text : pyval) (c : str)
        (w : world) (amount currency raw_description : pyval) (u u' : unit) :
  reply_with_text req id text ->
  truthy text = true ->
  fst (categorize_purchase E text w) = Return c ->
  holds_transaction (last_purchase w) amount currency raw_description ->
  sheets_append E [amount; currency; raw_description; text; PStr c] = Return u ->
  telegram_post E (StrOf id) [ Lit (lit "Got it. Categorized as: "); Fmt (PStr c) ]
  = Return u' ->
  telegram_webhook E req w
  = (Return ok_true,
     {| last_purchase := last_purchase w;
        ledger := ledger w ++ [[amount; currency; raw_description; text; PStr c]];
        outbox := outbox w
                  ++ [ (StrOf id, [ Lit (lit "Got it. Categorized as: "); Fmt (PStr c) ]) ] |}).
Proof.
  intros Hreq Ht Hc Hp Hsheet Hpost.
  rewrite (telegram_webhook_merges E req id text c w amount currency raw_description
             Hreq Ht Hc Hp).
  unfold expense_row, categorized_message. rewrite Hsheet, Hpost. reflexivity.
Qed.

Lemma telegram_webhook_acknowledges_witness :
  telegram_webhook (answering (Some (lit "Gifts"))) (reply_request 7 "birthday present")
    (with_purchase initial_world (pending (PInt 990) (PStr (lit "USD")) (PStr (lit "Cafe"))))
  = (Return ok_true,
     {| last_purchase := pending (PInt 990) (PStr (lit "USD")) (PStr (lit "Cafe"));
        ledger := [] ++ [[ PInt 990; PStr (lit "USD"); PStr (lit "Cafe");
                           PStr (lit "birthday present"); PStr (lit "Gifts") ]];
        outbox := [] ++ [ (StrOf (PInt 7),
                           [ Lit (lit "Got it. Categorized as: ");
                             Fmt (PStr (lit "Gifts")) ]) ] |}).
Proof.
  apply (telegram_webhook_acknowledges (answering (Some (lit "Gifts")))
           (reply_request 7 "birthday present") (PInt 7) (PStr (lit "birthday present"))
           (lit "Gifts")
           (with_purchase initial_world
              (pending (PInt 990) (PStr (lit "USD")) (PStr (lit "Cafe"))))
           (PInt 990) (PStr (lit "USD")) (PStr (lit "Cafe")) tt tt).
  - exists (PDict [ (lit "message",
                     PDict [ (lit "chat", PDict [ (lit "id", PInt 7) ]);
                             (lit "text", PStr (lit "birthday present")) ]) ]),
           (PDict [ (lit "chat", PDict [ (lit "id", PInt 7) ]);
                    (lit "text", PStr (lit "birthday present")) ]),
           (PDict [ (lit "id", PInt 7) ]).
    repeat split.
  - reflexivity.
  - reflexivity.
  - repeat split.
  - reflexivity.
  - reflexivity.
Defined.

(** X12. When the append to the spreadsheet raises, the reply handler raises
    the same exception and nothing has happened: no row, no acknowledgment,
    the store as before. *)
Theorem telegram_webhook_sheets_failure (E : env) (req : Request) (id text : pyval)
        (c : str) (w : world) (amount currency raw_description : pyval) (e : exn) :
  reply_with_text req id text ->
  truthy text = true ->
  fst (categorize_purchase E text w) = Return c ->
  holds_transaction (last_purchase w) amount currency raw_description ->
  sheets_append E [amount; currency; raw_description; text; PStr c] = Raise e ->
  telegram_webhook E req w = (Raise e, w).
Proof.
  intros Hreq Ht Hc Hp Hsheet.
  rewrite (telegram_webhook_merges E req id text c w amount currency raw_description
             Hreq Ht Hc Hp).
  unfold expense_row. now rewrite Hsheet.
Qed.

Lemma telegram_webhook_sheets_failure_witness :
  telegram_webhook
    (answering_with (Some (lit "Bills")) (Return tt) (Raise (ServiceError Sheets)))
    (reply_request 7 "electricity")
    (with_purchase initial_world (pending (PInt 990) (PStr (lit "USD")) (PStr (lit "Cafe"))))
  = (Raise (ServiceError Sheets),
     with_purchase initial_world (pending (PInt 990) (PStr (lit "USD")) (PStr (lit "Cafe")))).
Proof.
  apply (telegram_webhook_sheets_failure
           (answering_with (Some (lit "Bills")) (Return tt) (Raise (ServiceError Sheets)))
           (reply_request 7 "electricity") (PInt 7) (PStr (lit "electricity")) (lit "Bills")
           (with_purchase initial_world
              (pending (PInt 990) (PStr (lit "USD")) (PStr (lit "Cafe"))))
           (PInt 990) (PStr (lit "USD")) (PStr (lit "Cafe"))).
  - exists (PDict [ (lit "message",
                     PDict [ (lit "chat", PDict [ (lit "id", PInt 7) ]);
                             (lit "text", PStr (lit "electricity")) ]) ]),
           (PDict [ (lit "chat", PDict [ (lit "id", PInt 7) ]);
                    (lit "text", PStr (lit "electricity")) ]),
           (PDict [ (lit "id", PInt 7) ]).
    repeat split.
  - reflexivity.
  - reflexivity.
  - repeat split.
  - reflexivity.
Defined.

(** X13. The row is written before the acknowledgment is posted and is not
    rolled back: when the post to Telegram raises after the append returned,
    the handler raises the same exception, the row stays in the ledger and no
    message is recorded. *)
Theorem telegram_webhook_post_failure (E : env) (req : Request) (id text : pyval)
        (c : str) (w : world) (amount currency raw_description : pyval) (u : unit) (e : exn) :
  reply_with_text req id text ->
  truthy text = true ->
  fst (categorize_purchase E text w) = Return c ->
  holds_transaction (last_purchase w) amount currency raw_description ->
  sheets_append E [amount; currency; raw_description; text; PStr c] = Return u ->
  telegram_post E (StrOf id) [ Lit (lit "Got it. Categorized as: "); Fmt (PStr c) ]
  = Raise e ->
  telegram_webhook E req w
  = (Raise e,
     {| last_purchase := last_purchase w;
        ledger := ledger w ++ [[amount; currency; raw_description; text; PStr c]];
        outbox := outbox w |}).
Proof.
  intros Hreq Ht Hc Hp Hsheet Hpost.
  rewrite (telegram_webhook_merges E req id text c w amount currency raw_description
             Hreq Ht Hc Hp).
  unfold expense_row, categorized_message. rewrite Hsheet, Hpost. reflexivity.
Qed.

Lemma telegram_webhook_post_failure_witness :
  telegram_webhook
    (answering_with (Some (lit "Bills")) (Raise (ServiceError Telegram)) (Return tt))
    (reply_request 7 "electricity")
    (with_purchase initial_world (pending (PInt 990) (PStr (lit "USD")) (PStr (lit "Cafe"))))
  = (Raise (ServiceError Telegram),
     {| last_purchase := pending (PInt 990) (PStr (lit "USD")) (PStr (lit "Cafe"));
        ledger := [] ++ [[ PInt 990; PStr (lit "USD"); PStr (lit "Cafe");
                           PStr (lit "electricity"); PStr (lit "Bills") ]];
        outbox := [] |}).
Proof.
  apply (telegram_webhook_post_failure
           (answering_with (Some (lit "Bills")) (Raise (ServiceError Telegram)) (Return tt))
           (reply_request 7 "electricity") (PInt 7) (PStr (lit "electricity")) (lit "Bills")
           (with_purchase initial_world
              (pending (PInt 990) (PStr (lit "USD")) (PStr (lit "Cafe"))))
           (PInt 990) (PStr (lit "USD")) (PStr (lit "Cafe")) tt).
  - exists (PDict [ (lit "message",
                     PDict [ (lit "chat", PDict [ (lit "id", PInt 7) ]);
                             (lit "text", PStr (lit "electricity")) ]) ]),
           (PDict [ (lit "chat", PDict [ (lit "id", PInt 7) ]);
                    (lit "text", PStr (lit "electricity")) ]),
           (PDict [ (lit "id", PInt 7) ]).
    repeat split.
  - reflexivity.
  - reflexivity.
  - repeat split.
  - reflexivity.
  - reflexivity.
Defined.

(** X14. A failure of the classifier ends the request before anything is
    read or written: the handler raises the classifier's exception, no row is
    appended under a guessed category, and the state is unchanged. *)
Theorem telegram_webhook_classifier_failure (E : env) (req : Request) (id text : pyval)
        (w : world) (e : exn) :
  reply_with_text req id text ->
  truthy text = true ->
  fst (categorize_purchase E text w) = Raise e ->
  telegram_webhook E req w = (Raise e, w).
Proof.
  intros [body [message [chat [H1 [H2 [H3 [H4 H5]]]]]]] Ht Hc.
  unfold telegram_webhook. exec.
  exec_with H1. exec_with H2. exec_with H3. exec_with H4. exec_with H5.
  rewrite Ht. cbn [negb]. exec.
  exec_with (categorize_purchase_fst E text w _ Hc). reflexivity.
Qed.

Lemma telegram_webhook_classifier_failure_witness :
  telegram_webhook openai_down (reply_request 7 "electricity")
    (with_purchase initial_world (pending (PInt 990) (PStr (lit "USD")) (PStr (lit "Cafe"))))
  = (Raise (ServiceError OpenAI),
     with_purchase initial_world (pending (PInt 990) (PStr (lit "USD")) (PStr (lit "Cafe")))).
Proof.
  apply (telegram_webhook_classifier_failure openai_down (reply_request 7 "electricity")
           (PInt 7) (PStr (lit "electricity"))).
  - exists (PDict [ (lit "message",
                     PDict [ (lit "chat", PDict [ (lit "id", PInt 7) ]);
                             (lit "text", PStr (lit "electricity")) ]) ]),
           (PDict [ (lit "chat", PDict [ (lit "id", PInt 7) ]);
                    (lit "text", PStr (lit "electricity")) ]),
           (PDict [ (lit "id", PInt 7) ]).
    repeat split.
  - reflexivity.
  - reflexivity.
Defined.

(** Walk through [telegram_webhook], keeping what the classifier returned. *)
Ltac walk_reply :=
  repeat (exec;
          match goal with
          | |- context [categorize_purchase ?E ?d ?w] =>
              let r := fresh "r" in
              let w' := fresh "w" in
              let H := fresh "Hcat" in
              destruct (categorize_purchase E d w) as [r w'] eqn:H;
              let Hw := fresh "Hw" in
              pose proof (categorize_purchase_world E d w) as Hw;
              rewrite H in Hw; cbn [snd] in Hw; subst w'
          | |- context [match ?x with _ => _ end] =>
              lazymatch x with
              | context [match _ with _ => _ end] => fail
              | _ => destruct x eqn:?
              end
          end).

(** What one reply can do to the ledger. *)
Lemma telegram_webhook_appends (E : env) (req : Request) (w : world) :
  ledger (snd (telegram_webhook E req w)) = ledger w \/
  exists row,
    is_expense_row row /\ ledger (snd (telegram_webhook E req w)) = ledger w ++ [row].
Proof.
  unfold telegram_webhook, write_to_sheets, send_telegram_message. walk_reply;
    cbn [fst snd ledger outbox last_purchase];
    first [ left; reflexivity
          | right; eexists; split;
            [ do 5 eexists; split;
              [ reflexivity
              | match goal with
                | H : categorize_purchase _ _ _ = (Return _, _) |- _ =>
                    exact (proj1 (categorize_purchase_member _ _ _ _ _ H))
                end ]
            | reflexivity ] ].
Qed.

(** X15. No acknowledgment without its row, no row outside the closed set:
    whatever the request and the services, one call of [telegram_webhook]
    either leaves ledger and outbox as they were, or appends exactly one row of
    five cells whose category is one of the 13; an acknowledgment is posted
    only after that row was appended, it names the category of that row, and
    the handler then answers [{"ok": True}]. *)
Theorem telegram_webhook_frame (E : env) (req : Request) (w : world) :
  (ledger (snd (telegram_webhook E req w)) = ledger w /\
   outbox (snd (telegram_webhook E req w)) = outbox w) \/
  exists amount currency raw_description text c,
    In c categories /\
    ledger (snd (telegram_webhook E req w))
    = ledger w ++ [[amount; currency; raw_description; text; PStr c]] /\
    (outbox (snd (telegram_webhook E req w)) = outbox w \/
     exists id,
       outbox (snd (telegram_webhook E req w))
       = outbox w ++ [(StrOf id, categorized_message c)] /\
       fst (telegram_webhook E req w) = Return ok_true).
Proof.
  unfold telegram_webhook, write_to_sheets, send_telegram_message. walk_reply;
    cbn [fst snd ledger outbox last_purchase];
    first [ left; split; reflexivity
          | right; do 5 eexists; split;
            [ match goal with
              | H : categorize_purchase _ _ _ = (Return _, _) |- _ =>
                  exact (proj1 (categorize_purchase_member _ _ _ _ _ H))
              end
            | split;
              [ reflexivity
              | first [ left; reflexivity
                      | right; eexists; split; reflexivity ] ] ] ].
Qed.

(* ------------------------------------------------------------------------- *)
(** ** Malformed request bodies *)

(** X16. Neither handler checks the shape of the request body.  When
    [req.json()] raises, the exception leaves the handler; when the body is
    not a JSON object, [.get] raises [AttributeError]; for /webhook the same
    happens when the [message] field is not an object.  In each case no
    service has been called and the state is unchanged. *)
Theorem handlers_reject_bodies (json_loads : str -> result pyval) (CHAT_ID : option str)
        (E : env) (req : Request) (w : world) :
  (forall e, req_json req = Raise e ->
             handle_notification json_loads CHAT_ID E req w = (Raise e, w) /\
             telegram_webhook E req w = (Raise e, w)) /\
  (forall body, req_json req = Return body -> (forall d, body <> PDict d) ->
                handle_notification json_loads CHAT_ID E req w
                = (Raise (AttributeError (lit "get")), w) /\
                telegram_webhook E req w = (Raise (AttributeError (lit "get")), w)) /\
  (forall body message,
      req_json req = Return (PDict body) ->
      dict_lookup body (lit "message") = Some message ->
      (forall d, message <> PDict d) ->
      telegram_webhook E req w = (Raise (AttributeError (lit "get")), w)).
Proof.
  split; [|split].
  - intros e H. unfold handle_notification, telegram_webhook. exec. now rewrite H.
  - intros body H Hbody. unfold handle_notification, telegram_webhook. exec. rewrite H. exec.
    destruct body; try (split; reflexivity). exfalso. now apply (Hbody d).
  - intros body message H Hm Hmessage. unfold telegram_webhook. exec. rewrite H. exec.
    rewrite Hm. exec.
    destruct message; try reflexivity. exfalso. now apply (Hmessage d).
Qed.

Lemma handlers_reject_bodies_witness :
  handle_notification json_loads_sample (Some (lit "42")) (answering (Some falabella_text))
    {| req_json := Return (PList [ PStr (lit "notification") ]) |} initial_world
  = (Raise (AttributeError (lit "get")), initial_world) /\
  telegram_webhook (answering (Some falabella_text))
    {| req_json := Return (PList [ PStr (lit "notification") ]) |} initial_world
  = (Raise (AttributeError (lit "get")), initial_world).
Proof.
  apply (proj1 (proj2 (handlers_reject_bodies json_loads_sample (Some (lit "42"))
                         (answering (Some falabella_text))
                         {| req_json := Return (PList [ PStr (lit "notification") ]) |}
                         initial_world))
           (PList [ PStr (lit "notification") ]) eq_refl).
  intros d. discriminate.
Defined.

(* ------------------------------------------------------------------------- *)
(** ** Invariants of the running service *)

Lemma serve_store (json_loads : str -> result pyval) (CHAT_ID : option str)
      (c : call) (w : world) :
  last_purchase (serve json_loads CHAT_ID c w) = last_purchase w \/
  exists amount currency raw_description,
    last_purchase (serve json_loads CHAT_ID c w) = pending amount currency raw_description.
Proof.
  destruct c as [E req | E req]; simpl.
  - destruct (handle_notification_effects json_loads CHAT_ID E req w)
      as [_ [[Hp _] | [a [c [r [Hp _]]]]]]; [now left | right; now exists a, c, r].
  - left. apply telegram_webhook_pending.
Qed.

Lemma serve_ledger (json_loads : str -> result pyval) (CHAT_ID : option str)
      (c : call) (w : world) :
  ledger (serve json_loads CHAT_ID c w) = ledger w \/
  exists row,
    is_expense_row row /\ ledger (serve json_loads CHAT_ID c w) = ledger w ++ [row].
Proof.
  destruct c as [E req | E req]; simpl.
  - left. apply (handle_notification_effects json_loads CHAT_ID E req w).
  - apply telegram_webhook_appends.
Qed.

(** X17. The store keeps its shape for the life of the process: through any
    sequence of requests to the two endpoints, with any behaviour of the
    services, [last_purchase] stays either [{}] or a dict of exactly the three
    fields; and it is never emptied again, so once a transaction has been
    stored every later reply finds [amount], [currency] and
    [raw_description]. *)
Theorem store_shape_invariant (json_loads : str -> result pyval) (CHAT_ID : option str)
        (cs : list call) (w : world) :
  store_shape (last_purchase w) ->
  store_shape (last_purchase (serve_all json_loads CHAT_ID cs w)) /\
  (last_purchase w <> [] ->
   exists amount currency raw_description,
     last_purchase (serve_all json_loads CHAT_ID cs w)
     = pending amount currency raw_description /\
     holds_transaction (last_purchase (serve_all json_loads CHAT_ID cs w))
       amount currency raw_description).
Proof.
  revert w; induction cs as [|c cs IH]; intros w Hshape; simpl.
  - split; [exact Hshape|]. intros Hne.
    destruct Hshape as [H | [a [cu [r H]]]]; [contradiction|].
    exists a, cu, r. rewrite H. split; [reflexivity | apply pending_holds].
  - assert (Hstep : store_shape (last_purchase (serve json_loads CHAT_ID c w)) /\
                    (last_purchase w <> [] ->
                     last_purchase (serve json_loads CHAT_ID c w) <> [])).
    { destruct (serve_store json_loads CHAT_ID c w) as [H | [a [cu [r H]]]]; rewrite H.
      - split; [exact Hshape | auto].
      - split; [right; now exists a, cu, r | intros _; discriminate]. }
    destruct Hstep as [Hshape' Hne'].
    destruct (IH _ Hshape') as [H1 H2]. split; [exact H1|].
    intros Hne. apply H2. now apply Hne'.
Qed.

Lemma store_shape_invariant_witness :
  store_shape
    (last_purchase
       (serve_all json_loads_sample (Some (lit "42"))
          [ PostWebhook (answering (Some (lit "Travel"))) (reply_request 7 "train");
            PostNotification (answering (Some falabella_text))
              (notification_request "Compra por 2,349 en Falabella");
            PostNotification (answering (Some partial_text))
              (notification_request "Compra por 5");
            PostWebhook (answering (Some (lit "Travel"))) (reply_request 7 "train") ]
          initial_world)) /\
  (last_purchase initial_world <> [] ->
   exists amount currency raw_description,
     last_purchase
       (serve_all json_loads_sample (Some (lit "42"))
          [ PostWebhook (answering (Some (lit "Travel"))) (reply_request 7 "train");
            PostNotification (answering (Some falabella_text))
              (notification_request "Compra por 2,349 en Falabella");
            PostNotification (answering (Some partial_text))
              (notification_request "Compra por 5");
            PostWebhook (answering (Some (lit "Travel"))) (reply_request 7 "train") ]
          initial_world)
     = pending amount currency raw_description /\
     holds_transaction
       (last_purchase
          (serve_all json_loads_sample (Some (lit "42"))
             [ PostWebhook (answering (Some (lit "Travel"))) (reply_request 7 "train");
               PostNotification (answering (Some falabella_text))
                 (notification_request "Compra por 2,349 en Falabella");
               PostNotification (answering (Some partial_text))
                 (notification_request "Compra por 5");
               PostWebhook (answering (Some (lit "Travel"))) (reply_request 7 "train") ]
             initial_world))
       amount currency raw_description).
Proof.
  apply (store_shape_invariant json_loads_sample (Some (lit "42"))).
  left. reflexivity.
Defined.

(** X18. The ledger is append-only and holds only merged rows: through any
    sequence of requests to the two endpoints, with any behaviour of the
    services, the rows already there stay in place and every row added has
    five cells, the last of which is one of the 13 categories. *)
Theorem ledger_invariant (json_loads : str -> result pyval) (CHAT_ID : option str)
        (cs : list call) (w : world) :
  exists rows,
    ledger (serve_all json_loads CHAT_ID cs w) = ledger w ++ rows /\
    Forall (fun row => exists amount currency raw_description text c,
                row = [amount; currency; raw_description; text; PStr c] /\
                In c categories) rows.
Proof.
  revert w; induction cs as [|c cs IH]; intros w; simpl.
  - exists []. split; [now rewrite app_nil_r | constructor].
  - destruct (IH (serve json_loads CHAT_ID c w)) as [rows [Hrows Hall]].
    destruct (serve_ledger json_loads CHAT_ID c w) as [H | [row [Hrow H]]].
    + exists rows. split; [congruence | assumption].
    + exists (row :: rows). split.
      * rewrite Hrows, H, <- app_assoc. reflexivity.
      * constructor; [exact Hrow | assumption].
Qed.

(** A day of requests: a reply too early, a purchase, a partial result, two
    replies. *)
Example service_run :
  let w := serve_all json_loads_sample (Some (lit "42"))
             [ PostWebhook (answering (Some (lit "Travel"))) (reply_request 7 "train");
               PostNotification (answering (Some falabella_text))
                 (notification_request "Compra por 2,349 en Falabella");
               PostNotification (answering (Some partial_text))
                 (notification_request "Compra por 5");
               PostWebhook (answering (Some (lit "Eating Out")))
                 (reply_request 7 "lunch with friends");
               PostWebhook (answering (Some (lit "no idea"))) (reply_request 7 "stuff") ]
             initial_world in
  last_purchase w = pending (PInt 2349) (PStr (lit "CLP")) (PStr (lit "Falabella")) /\
  ledger w
  = [ [ PInt 2349; PStr (lit "CLP"); PStr (lit "Falabella");
        PStr (lit "lunch with friends"); PStr (lit "Eating Out") ];
      [ PInt 2349; PStr (lit "CLP"); PStr (lit "Falabella");
        PStr (lit "stuff"); PStr (lit "Other") ] ] /\
  length (outbox w) = 3%nat.
Proof. repeat split. Qed.
